(** * Frame extraction: sampling, resizing and numbering of video frames

    A shallow embedding of [frame_extraction.py]: the functions
    [resize_image], [extract_frames] and [process_local_video], over an
    explicit model of what they touch (the file system, the OpenCV video
    reader and image writer, the console), followed by the theorems
    about the sampling and naming contract. *)

From Stdlib Require Import Ascii DecimalString DecimalN.
From stdpp Require Import gmap strings list list_numbers sorting.

Open Scope Z_scope.

(** ** Python values *)

(** Python integers are unbounded: [Z]. *)

(** Exceptions the code can raise, directly or through a library. *)
Inductive Exn :=
  | FileNotFoundError (msg : string)
  | FileExistsError (path : string)
  | ZeroDivisionError
  | Cv2Error.

Inductive Result (A : Type) :=
  | Ok (a : A)
  | Raise (e : Exn).
Arguments Ok {A} a.
Arguments Raise {A} e.

(** [a % b] on Python integers: floor modulo (the sign of the result
    follows the divisor), [ZeroDivisionError] for [b = 0]. *)
Definition py_mod (a b : Z) : Result Z :=
  if b =? 0 then Raise ZeroDivisionError else Ok (a mod b).

(** *** Decimal formatting *)

Fixpoint zeros (n : nat) : string :=
  match n with
  | O => ""
  | S n => String "0"%char (zeros n)
  end.

(** The decimal digits of a natural number, most significant first,
    without leading zeros (["0"] for zero). *)
Definition digits_of_N (n : N) : string :=
  NilEmpty.string_of_uint (N.to_uint n).

(** [str(n)] for an integer. *)
Definition py_str (n : Z) : string :=
  if n <? 0 then "-" +:+ digits_of_N (Z.abs_N n) else digits_of_N (Z.abs_N n).

(** [f'{n:05d}']: sign-aware zero padding to a minimum width of five
    characters; wider numbers are not truncated. *)
Definition format_05d (n : Z) : string :=
  let digits := digits_of_N (Z.abs_N n) in
  if n <? 0
  then "-" +:+ zeros (4 - String.length digits) +:+ digits
  else zeros (5 - String.length digits) +:+ digits.

(** [int(s)] on a string of decimal digits ([None] stands for
    [ValueError]); used to read identifiers back from file names. *)
Definition parse_digits (s : string) : option Z :=
  (λ d, Z.of_N (N.of_uint d)) <$> NilEmpty.uint_of_string s.

(** *** Paths *)

Definition starts_with_sep (s : string) : bool :=
  match s with
  | String c _ => Ascii.eqb c "/"%char
  | EmptyString => false
  end.

Fixpoint ends_with_sep (s : string) : bool :=
  match s with
  | EmptyString => false
  | String c EmptyString => Ascii.eqb c "/"%char
  | String _ s' => ends_with_sep s'
  end.

(** [os.path.join(a, b)] (POSIX). *)
Definition os_path_join (a b : string) : string :=
  if starts_with_sep b then b
  else if (String.length a =? 0)%nat || ends_with_sep a then a +:+ b
  else a +:+ "/" +:+ b.

(** ** Images and the world *)

(** A decoded raster. [content] stands for the picture itself (which
    scene the pixels show); the pixel values are not modelled. *)
Record Frame := {
  width : Z;
  height : Z;
  content : nat
}.

Global Instance Frame_inhabited : Inhabited Frame :=
  populate {| width := 0; height := 0; content := O |}.

(** What a path of the file system holds. *)
Inductive Node :=
  | Directory
  | VideoFile (frames : list Frame)
  | ImageFile (img : Frame)
  | OtherFile.

(** Calls that reach outside the program, in the order they happen. *)
Inductive Event :=
  | EvPrint (line : string)
  | EvMkdir (path : string)
  | EvOpen (path : string) (opened : bool)
  | EvRead (frame : option Frame)
  | EvWrite (path : string) (img : Frame)
  | EvRelease.

Record World := {
  fs : gmap string Node;
  trace : list Event
}.

Definition log (e : Event) (w : World) : World :=
  {| fs := fs w; trace := trace w ++ [e] |}.

(** ** Effects: world passing with exceptions *)

Definition M (A : Type) : Type := World → Result A * World.

Definition ret {A} (a : A) : M A := λ w, (Ok a, w).

Definition raise {A} (e : Exn) : M A := λ w, (Raise e, w).

Definition bind {A B} (c : M A) (k : A → M B) : M B := λ w,
  match c w with
  | (Ok a, w') => k a w'
  | (Raise e, w') => (Raise e, w')
  end.

Definition lift {A} (r : Result A) : M A := λ w, (r, w).

Definition emit (e : Event) : M unit := λ w, (Ok tt, log e w).

Notation "'let!' x ':=' c 'in' k" := (bind c (λ x, k))
  (at level 10, x pattern, c at level 100, k at level 200).
Notation "c ';;;' k" := (bind c (λ _, k))
  (at level 100, k at level 200, right associativity).

(** ** Library calls *)

(** [print(line)] *)
Definition print (line : string) : M unit := emit (EvPrint line).

(** [os.path.exists(path)] *)
Definition os_path_exists (path : string) : M bool := λ w,
  (Ok (bool_decide (is_Some (fs w !! path))), w).

(** [Path(path).mkdir(parents=True, exist_ok=True)]: nothing to do for
    an existing directory, [FileExistsError] when the path is taken by a
    file. Directories are keyed by their whole path; ancestors are not
    entered separately. *)
Definition mkdir_parents (path : string) : M unit := λ w,
  match fs w !! path with
  | Some Directory => (Ok tt, log (EvMkdir path) w)
  | Some _ => (Raise (FileExistsError path), log (EvMkdir path) w)
  | None =>
      (Ok tt, {| fs := <[path := Directory]> (fs w);
                 trace := trace w ++ [EvMkdir path] |})
  end.

(** A [cv2.VideoCapture] object: whether the source was opened, and the
    frames not read yet. *)
Record Capture := {
  cap_opened : bool;
  cap_pending : list Frame
}.

(** [cv2.VideoCapture(path)]: never raises; a path that does not hold a
    decodable video gives a capture that is not opened. *)
Definition VideoCapture (path : string) : M Capture := λ w,
  match fs w !! path with
  | Some (VideoFile frames) =>
      (Ok {| cap_opened := true; cap_pending := frames |},
       log (EvOpen path true) w)
  | _ =>
      (Ok {| cap_opened := false; cap_pending := [] |},
       log (EvOpen path false) w)
  end.

(** [cap.release()] *)
Definition cap_release : M unit := emit EvRelease.

Definition empty_size (w h : Z) : bool := (w <=? 0) || (h <=? 0).

(** [cv2.resize(image, dsize, interpolation=cv2.INTER_AREA)]: the result
    has exactly the size [dsize = (width, height)] and shows the whole
    picture; an empty source or destination size is rejected. *)
Definition cv2_resize (image : Frame) (dsize : Z * Z) : Result Frame :=
  if empty_size (width image) (height image) then Raise Cv2Error
  else if empty_size dsize.1 dsize.2 then Raise Cv2Error
  else Ok {| width := dsize.1; height := dsize.2; content := content image |}.

(** [cv2.imwrite(path, img)]: returns whether the file was written; a
    directory is never overwritten. *)
Definition cv2_imwrite (path : string) (img : Frame) : M bool := λ w,
  match fs w !! path with
  | Some Directory => (Ok false, log (EvWrite path img) w)
  | _ =>
      (Ok true, {| fs := <[path := ImageFile img]> (fs w);
                   trace := trace w ++ [EvWrite path img] |})
  end.

(** ** The program *)

(** [resize_image(image, target_size)] *)
Definition resize_image (image : Frame) (target_size : Z * Z) : Result Frame :=
  cv2_resize image target_size.

(** [f'frame_{saved_count:05d}.png'] *)
Definition frame_filename (saved_count : Z) : string :=
  "frame_" +:+ format_05d saved_count +:+ ".png".

(** The [while cap.isOpened()] loop of [extract_frames]. [cap.read()]
    takes the next pending frame; with none left it returns
    [(False, None)] and the loop breaks. *)
Fixpoint read_loop (output_dir : string) (sample_rate : Z) (target_size : Z * Z)
    (opened : bool) (pending : list Frame) (frame_count saved_count : Z)
    {struct pending} : M Z :=
  if negb opened then ret saved_count
  else
    match pending with
    | [] => emit (EvRead None) ;;; ret saved_count
    | frame :: rest =>
        emit (EvRead (Some frame)) ;;;
        let! m := lift (py_mod frame_count sample_rate) in
        let! saved_count :=
          (if m =? 0 then
             let! resized_frame := lift (resize_image frame target_size) in
             let output_path := os_path_join output_dir (frame_filename saved_count) in
             cv2_imwrite output_path resized_frame ;;;
             ret (saved_count + 1)
           else ret saved_count) in
        read_loop output_dir sample_rate target_size opened rest
                  (frame_count + 1) saved_count
    end.

(** [extract_frames(video_path, output_dir, sample_rate, target_size)] *)
Definition extract_frames (video_path output_dir : string) (sample_rate : Z)
    (target_size : Z * Z) : M Z :=
  let! cap := VideoCapture video_path in
  mkdir_parents output_dir ;;;
  let! saved_count :=
    read_loop output_dir sample_rate target_size
              (cap_opened cap) (cap_pending cap) 0 0 in
  cap_release ;;;
  ret saved_count.

(** [process_local_video(video_path, output_dir, sample_rate, target_size)] *)
Definition process_local_video (video_path output_dir : string) (sample_rate : Z)
    (target_size : Z * Z) : M Z :=
  let! found := os_path_exists video_path in
  (if negb found
   then raise (FileNotFoundError ("Video file not found: " +:+ video_path))
   else ret tt) ;;;
  let frames_dir := os_path_join output_dir "frames" in
  mkdir_parents frames_dir ;;;
  print ("Extracting frames from: " +:+ video_path) ;;;
  let! num_frames := extract_frames video_path frames_dir sample_rate target_size in
  print ("Extracted " +:+ py_str num_frames +:+ " frames to " +:+ frames_dir) ;;;
  ret num_frames.

(** ** Reading a run *)

(** The events a run added to the world it started from. *)
Definition events_since (w w' : World) : list Event :=
  drop (length (trace w)) (trace w').

(** The frames handed to [cv2.imwrite], with their paths, in order. *)
Definition writes (t : list Event) : list (string * Frame) :=
  omap (λ e, match e with EvWrite p img => Some (p, img) | _ => None end) t.

(** The outcomes of [cap.read()], in order. *)
Definition reads (t : list Event) : list (option Frame) :=
  omap (λ e, match e with EvRead o => Some o | _ => None end) t.

(** ** Vocabulary of the specification *)

(** [ceil(n / d)] for a positive [d]. *)
Definition ceil_div (n d : Z) : Z := - ((- n) / d).

(** The read indices a stride [r] accepts among [0 .. N-1]. *)
Definition accepted_indices (r N : Z) : list Z :=
  filter (λ i, i mod r = 0) (seqZ 0 N).

(** A frame stretched to the target size. *)
Definition resized (target_size : Z * Z) (f : Frame) : Frame :=
  {| width := target_size.1; height := target_size.2; content := content f |}.

(** What happens to the frame read at index [i]: it is read, and when the
    stride accepts it, it is written at once under the identifier
    [i / |r|]. *)
Definition frame_events (output_dir : string) (r : Z) (target_size : Z * Z)
    (i : Z) (f : Frame) : list Event :=
  EvRead (Some f) ::
  (if bool_decide (i mod r = 0)
   then [EvWrite (os_path_join output_dir (frame_filename (i / Z.abs r)))
                 (resized target_size f)]
   else []).

(** The trace of a run over an opened source, for a non-zero stride. *)
Definition run_events (video_path output_dir : string) (r : Z)
    (target_size : Z * Z) (frames : list Frame) : list Event :=
  [EvOpen video_path true; EvMkdir output_dir]
  ++ concat (imap (λ k f, frame_events output_dir r target_size (Z.of_nat k) f) frames)
  ++ [EvRead None; EvRelease].

(** ** Assumptions on the environment *)

(** The decoder never yields an empty raster. *)
Definition decoded (f : Frame) : Prop := 0 < width f ∧ 0 < height f.

Definition valid_size (target_size : Z * Z) : Prop :=
  0 < target_size.1 ∧ 0 < target_size.2.

(** [video_path] holds a video that decodes to [frames]. *)
Definition holds_video (w : World) (video_path : string) (frames : list Frame) : Prop :=
  fs w !! video_path = Some (VideoFile frames) ∧ Forall decoded frames.

(** [path] is free or already a directory, so that creating it succeeds. *)
Definition can_mkdir (w : World) (path : string) : Prop :=
  fs w !! path = None ∨ fs w !! path = Some Directory.

(** ** Sample worlds *)

(** A full-HD frame showing picture [c]. *)
Definition hd_frame (c : nat) : Frame :=
  {| width := 1920; height := 1080; content := c |}.

(** A clip of [n] distinct full-HD frames. *)
Definition clip (n : nat) : list Frame := hd_frame <$> seq 0 n.

(** A file system holding a single node, and nothing logged yet. *)
Definition world_with (path : string) (node : Node) : World :=
  {| fs := {[ path := node ]}; trace := [] |}.

Ltac env_ok :=
  lazymatch goal with
  | |- holds_video _ _ _ =>
      split; [vm_compute; reflexivity
             | repeat constructor; vm_compute; reflexivity]
  | |- can_mkdir _ _ => left; vm_compute; reflexivity
  | |- valid_size _ => split; vm_compute; reflexivity
  | |- _ => first [lia | vm_compute; reflexivity | discriminate]
  end.

(** ** The file system after a run *)

(** What one [cv2.imwrite] does to the file system. *)
Definition write_node (m : gmap string Node) (pi : string * Frame) : gmap string Node :=
  match m !! pi.1 with
  | Some Directory => m
  | _ => <[pi.1 := ImageFile pi.2]> m
  end.

(** The events the read loop can add: reads, and writes of frame files
    of the output directory. *)
Definition loop_event (output_dir : string) (e : Event) : Prop :=
  match e with
  | EvRead _ => True
  | EvWrite p _ => ∃ k, 0 ≤ k ∧ p = os_path_join output_dir (frame_filename k)
  | _ => False
  end.

(** What [Path(path).mkdir(parents=True, exist_ok=True)] leaves in the
    file system: the directory, unless the path was taken. *)
Definition with_directory (path : string) (m : gmap string Node) : gmap string Node :=
  match m !! path with
  | None => <[path := Directory]> m
  | Some _ => m
  end.

(** ** The batch driver *)

(** What the calls of the batch driver can raise: the exceptions of the
    extraction, a failed download, and the two ways [os.remove] fails. *)
Inductive BatchExn :=
  | CoreExn (e : Exn)
  | DownloadError (msg : string)
  | RemoveMissing (path : string)
  | IsADirectoryError (path : string).

Inductive BResult (A : Type) :=
  | BOk (a : A)
  | BRaise (e : BatchExn).
Arguments BOk {A} a.
Arguments BRaise {A} e.

Definition MB (A : Type) : Type := World → BResult A * World.

Definition bret {A} (a : A) : MB A := λ w, (BOk a, w).

Definition bbind {A B} (c : MB A) (k : A → MB B) : MB B := λ w,
  match c w with
  | (BOk a, w') => k a w'
  | (BRaise e, w') => (BRaise e, w')
  end.

(** A call of the extraction layer made from the batch driver. *)
Definition core {A} (c : M A) : MB A := λ w,
  match c w with
  | (Ok a, w') => (BOk a, w')
  | (Raise e, w') => (BRaise (CoreExn e), w')
  end.

Notation "'do!' x ':=' c 'in' k" := (bbind c (λ x, k))
  (at level 10, x pattern, c at level 100, k at level 200).
Notation "c ';;!' k" := (bbind c (λ _, k))
  (at level 100, k at level 200, right associativity).

(** [f'{n:02d}'] *)
Definition format_02d (n : Z) : string :=
  let digits := digits_of_N (Z.abs_N n) in
  if n <? 0
  then "-" +:+ zeros (1 - String.length digits) +:+ digits
  else zeros (2 - String.length digits) +:+ digits.

(** [f'video_{i:02d}'] *)
Definition video_dirname (i : Z) : string := "video_" +:+ format_02d i.

(** [os.remove(path)]: deletes a file; a missing path and a directory are
    errors. The trace has no event for it: the removal shows in the file
    system. *)
Definition os_remove (path : string) : MB unit := λ w,
  match fs w !! path with
  | None => (BRaise (RemoveMissing path), w)
  | Some Directory => (BRaise (IsADirectoryError path), w)
  | Some _ => (BOk tt, {| fs := delete path (fs w); trace := trace w |})
  end.

Section Batch.

(** [yt_dlp.YoutubeDL({'format': f, 'outtmpl': t}).extract_info(url,
    download=True)['title']]: the download library is outside the
    repository, so it is a parameter; it may change the world in any
    way and raise. *)
Variable ydl_extract_info : string → string → string → MB string.

(** [str(e)] for a caught exception. *)
Variable exn_str : BatchExn → string.

(** [download_youtube_video(url, output_path)] *)
Definition download_youtube_video (url output_path : string) : MB string :=
  let format := "best[ext=mp4]" in
  let outtmpl := os_path_join output_path "%(title)s.%(ext)s" in
  do! title := ydl_extract_info format outtmpl url in
  bret (os_path_join output_path (title +:+ ".mp4")).

(** The [try] block of [process_videos] for the [i]-th of [n] urls. *)
Definition process_videos_try (i n : Z) (url base_output_dir : string)
    (target_size : Z * Z) : MB unit :=
  let video_dir := os_path_join base_output_dir (video_dirname i) in
  core (mkdir_parents video_dir) ;;!
  core (print ("Downloading video " +:+ py_str (i + 1) +:+ "/" +:+ py_str n
               +:+ ": " +:+ url)) ;;!
  do! video_path := download_youtube_video url video_dir in
  core (print ("Extracting frames from video " +:+ py_str (i + 1))) ;;!
  let frames_dir := os_path_join video_dir "frames" in
  do! num_frames := core (extract_frames video_path frames_dir 30 target_size) in
  core (print ("Extracted " +:+ py_str num_frames +:+ " frames")) ;;!
  os_remove video_path.

(** One turn of the [for] loop: the [try] block, and the [except
    Exception] handler that prints the error and goes on. *)
Definition process_videos_step (i n : Z) (url base_output_dir : string)
    (target_size : Z * Z) : M unit := λ w,
  match process_videos_try i n url base_output_dir target_size w with
  | (BOk _, w') => (Ok tt, w')
  | (BRaise e, w') =>
      print ("Error processing video " +:+ url +:+ ": " +:+ exn_str e) w'
  end.

(** [for i, url in enumerate(video_urls)], from index [i] on. *)
Fixpoint process_videos_from (i n : Z) (video_urls : list string)
    (base_output_dir : string) (target_size : Z * Z) : M unit :=
  match video_urls with
  | [] => ret tt
  | url :: rest =>
      process_videos_step i n url base_output_dir target_size ;;;
      process_videos_from (i + 1) n rest base_output_dir target_size
  end.

(** [process_videos(video_urls, base_output_dir, target_size)] *)
Definition process_videos (video_urls : list string) (base_output_dir : string)
    (target_size : Z * Z) : M unit :=
  process_videos_from 0 (Z.of_nat (length video_urls)) video_urls
                      base_output_dir target_size.

End Batch.

(** *** Sample collaborators *)

(** A download that always fails. *)
Definition offline_ydl : string → string → string → MB string :=
  λ _ _ url w, (BRaise (DownloadError ("unable to download " +:+ url)), w).

(** A download that stores a clip of three frames under the title
    ["demo"] in [out/video_00]. *)
Definition demo_ydl : string → string → string → MB string :=
  λ _ _ _ w,
    (BOk "demo",
     {| fs := <["out/video_00/demo.mp4" := VideoFile (clip 3)]> (fs w);
        trace := trace w |}).

(** A download that reports the title ["demo"] and stores nothing under
    that name. *)
Definition misnamed_ydl : string → string → string → MB string :=
  λ _ _ _ w, (BOk "demo", w).

(** A rendering of exceptions that keeps their class only. *)
Definition demo_exn_str (e : BatchExn) : string :=
  match e with
  | CoreExn (FileNotFoundError _) => "FileNotFoundError"
  | CoreExn (FileExistsError _) => "FileExistsError"
  | CoreExn ZeroDivisionError => "ZeroDivisionError"
  | CoreExn Cv2Error => "cv2.error"
  | DownloadError _ => "DownloadError"
  | RemoveMissing _ => "FileNotFoundError"
  | IsADirectoryError _ => "IsADirectoryError"
  end.

(** The empty world. *)
Definition empty_world : World := {| fs := ∅; trace := [] |}.

(** The world in which the download of the [i]-th of [n] urls starts:
    the directory of the video has been made and the download announced. *)
Definition download_start (i n : Z) (url base_output_dir : string) (w : World) : World :=
  log (EvPrint ("Downloading video " +:+ py_str (i + 1) +:+ "/" +:+ py_str n
                +:+ ": " +:+ url))
      (mkdir_parents (os_path_join base_output_dir (video_dirname i)) w).2.

(** The last character of a string. *)
Fixpoint str_last (s : string) : option ascii :=
  match s with
  | EmptyString => None
  | String c EmptyString => Some c
  | String _ s' => str_last s'
  end.

(** The events of the batch driver itself, outside the extraction. *)
Definition batch_event (e : Event) : Prop :=
  match e with
  | EvPrint _ | EvMkdir _ => True
  | _ => False
  end.

(** The places of the [i]-th video of a batch: its directory, the file
    the download is expected at, and the directory of its frames. *)
Definition video_dir (base_output_dir : string) (i : Z) : string :=
  os_path_join base_output_dir (video_dirname i).

Definition video_file (base_output_dir : string) (i : Z) (title : string) : string :=
  os_path_join (video_dir base_output_dir i) (title +:+ ".mp4").

Definition video_frames_dir (base_output_dir : string) (i : Z) : string :=
  os_path_join (video_dir base_output_dir i) "frames".

(** ** The script at the end of the module *)

Definition local_video_path : string := "Data preparation/drones3.mov".
Definition output_directory : string := "suas_dataset".
Definition target_size : Z * Z := (224, 224).

(** [str(e)] for an exception of the extraction layer: the message for
    the [FileNotFoundError] the code raises itself, and whatever the
    library says ([lib_str]) for the others. *)
Definition exn_message (lib_str : Exn → string) (e : Exn) : string :=
  match e with
  | FileNotFoundError msg => msg
  | _ => lib_str e
  end.

(** The statements run when the module is loaded: the call of
    [process_local_video] on the fixed path, inside [try] / [except
    Exception]. *)
Definition script (lib_str : Exn → string) : M unit := λ w,
  match process_local_video local_video_path output_directory 3 target_size w with
  | (Ok _, w') => (Ok tt, w')
  | (Raise e, w') =>
      print ("Error processing local video: " +:+ exn_message lib_str e) w'
  end.

(** * Lemmas *)

(** ** Arithmetic of strides *)

Lemma ceil_div_bounds n d :
  0 < d → d * (ceil_div n d - 1) < n ∧ n ≤ d * ceil_div n d.
Proof.
  intros Hd. unfold ceil_div.
  pose proof (Z.div_mod (- n) d) as E.
  pose proof (Z.mod_pos_bound (- n) d Hd) as B.
  nia.
Qed.

Lemma ceil_div_unique n d c :
  0 < d → d * (c - 1) < n → n ≤ d * c → ceil_div n d = c.
Proof.
  intros Hd H1 H2. destruct (ceil_div_bounds n d Hd) as [B1 B2]. nia.
Qed.

Lemma ceil_div_0 d : ceil_div 0 d = 0.
Proof. unfold ceil_div. simpl. by destruct d. Qed.

Lemma ceil_div_hit i a :
  0 < a → i mod a = 0 → ceil_div i a = i / a ∧ ceil_div (i + 1) a = i / a + 1.
Proof.
  intros Ha Hm. pose proof (Z.div_mod i a) as E.
  split; apply ceil_div_unique; nia.
Qed.

Lemma ceil_div_miss i a :
  0 < a → i mod a ≠ 0 → ceil_div (i + 1) a = ceil_div i a.
Proof.
  intros Ha Hm. destruct (ceil_div_bounds i a Ha) as [B1 B2].
  apply ceil_div_unique; [done | lia |].
  destruct (decide (i = a * ceil_div i a)) as [E|]; [|lia].
  exfalso. apply Hm. rewrite E, Z.mul_comm. apply Z.mod_mul. lia.
Qed.

Lemma mod_abs_zero i r : i mod r = 0 ↔ i mod Z.abs r = 0.
Proof.
  destruct (decide (r = 0)) as [->|Hr]; [done|].
  rewrite !Z.mod_divide by lia. symmetry. apply Z.divide_abs_l.
Qed.

(** ** The library calls, step by step *)

Lemma py_mod_nonzero a b : b ≠ 0 → py_mod a b = Ok (a mod b).
Proof. intros Hb. unfold py_mod. by rewrite (proj2 (Z.eqb_neq b 0) Hb). Qed.

Lemma resize_image_ok f ts :
  decoded f → valid_size ts → resize_image f ts = Ok (resized ts f).
Proof.
  intros [Hw Hh] [Htw Hth]. unfold resize_image, cv2_resize, empty_size.
  rewrite !(proj2 (Z.leb_gt _ _)) by done. done.
Qed.

Lemma cv2_imwrite_run p img w :
  ∃ b w', cv2_imwrite p img w = (Ok b, w') ∧ trace w' = trace w ++ [EvWrite p img].
Proof.
  unfold cv2_imwrite. destruct (fs w !! p) as [[]|]; simpl; eauto.
Qed.

Lemma mkdir_parents_run p w :
  can_mkdir w p →
  ∃ w', mkdir_parents p w = (Ok tt, w') ∧ trace w' = trace w ++ [EvMkdir p] ∧
        ∀ q, q ≠ p → fs w' !! q = fs w !! q.
Proof.
  unfold can_mkdir, mkdir_parents. intros [-> | ->]; simpl.
  - eexists; split_and!; [done..|]. intros q Hq. simpl. by rewrite lookup_insert_ne.
  - eexists; split_and!; done.
Qed.

(** ** The read loop *)

(** A capture that was never opened is not read at all. *)
Lemma read_loop_closed dir r ts pending fc sc w :
  read_loop dir r ts false pending fc sc w = (Ok sc, w).
Proof. by destruct pending. Qed.

Lemma frame_events_shift dir r ts fc (rest : list Frame) :
  imap ((λ k f, frame_events dir r ts (fc + Z.of_nat k) f) ∘ S) rest
  = imap (λ k f, frame_events dir r ts (fc + 1 + Z.of_nat k) f) rest.
Proof.
  apply imap_ext. intros k f _. simpl. f_equal; lia.
Qed.

(** With a non-zero stride the loop reads every frame in turn, handles
    each as [frame_events] says, and stops at the first failed read. The
    counter of saved frames is [ceil_div] of the counter of read frames
    throughout. *)
Lemma read_loop_run dir r ts frames :
  r ≠ 0 → valid_size ts → Forall decoded frames →
  ∀ fc sc w, 0 ≤ fc → sc = ceil_div fc (Z.abs r) →
  ∃ w', read_loop dir r ts true frames fc sc w
          = (Ok (ceil_div (fc + Z.of_nat (length frames)) (Z.abs r)), w') ∧
        trace w' = trace w
                   ++ concat (imap (λ k f, frame_events dir r ts (fc + Z.of_nat k) f) frames)
                   ++ [EvRead None].
Proof.
  intros Hr Hts Hdec. induction Hdec as [|f rest Hf Hrest IH]; intros fc sc w Hfc Hsc.
  - eexists. split; [by rewrite Z.add_0_r, Hsc|]. done.
  - assert (0 < Z.abs r) as Ha by lia.
    cbn [read_loop negb]. unfold bind at 1. cbn [emit].
    unfold bind at 1. unfold lift at 1. rewrite py_mod_nonzero by done.
    unfold bind at 1.
    destruct (Z.eqb_spec (fc mod r) 0) as [Hm | Hm].
    + unfold bind at 1. unfold lift at 1. rewrite resize_image_ok by done.
      unfold bind at 1.
      destruct (cv2_imwrite_run (os_path_join dir (frame_filename sc))
                  (resized ts f) (log (EvRead (Some f)) w)) as (b & w1 & -> & Ht1).
      cbn [ret].
      destruct (ceil_div_hit fc (Z.abs r) Ha (proj1 (mod_abs_zero fc r) Hm))
        as [Hc Hc'].
      destruct (IH (fc + 1) (sc + 1) w1) as (w' & -> & Ht'); [lia | congruence |].
      exists w'. split.
      { by replace (fc + Z.of_nat (length (f :: rest)))
          with (fc + 1 + Z.of_nat (length rest)) by (rewrite length_cons; lia). }
      rewrite Ht', Ht1. cbn [log trace]. rewrite imap_cons. cbn [concat].
      unfold frame_events at 2. rewrite Z.add_0_r, bool_decide_eq_true_2 by done.
      rewrite <- Hc, <- Hsc.
      rewrite frame_events_shift.
      by rewrite <- !app_assoc.
    + cbn [ret].
      pose proof (ceil_div_miss fc (Z.abs r) Ha
                    (λ H, Hm (proj2 (mod_abs_zero fc r) H))) as Hc.
      destruct (IH (fc + 1) sc (log (EvRead (Some f)) w)) as (w' & -> & Ht');
        [lia | congruence |].
      exists w'. split.
      { by replace (fc + Z.of_nat (length (f :: rest)))
          with (fc + 1 + Z.of_nat (length rest)) by (rewrite length_cons; lia). }
      rewrite Ht'. cbn [log trace]. rewrite imap_cons. cbn [concat].
      unfold frame_events at 2. rewrite Z.add_0_r, bool_decide_eq_false_2 by done.
      rewrite frame_events_shift.
      by rewrite <- !app_assoc.
Qed.

(** ** A whole run of [extract_frames] *)

Lemma events_since_app w w' t :
  trace w' = trace w ++ t → events_since w w' = t.
Proof. unfold events_since. intros ->. apply drop_app_length. Qed.

Lemma extract_frames_run w vp dir r ts frames :
  holds_video w vp frames → can_mkdir w dir → valid_size ts → r ≠ 0 →
  ∃ w', extract_frames vp dir r ts w
          = (Ok (ceil_div (Z.of_nat (length frames)) (Z.abs r)), w') ∧
        events_since w w' = run_events vp dir r ts frames.
Proof.
  intros [Hv Hdec] Hdir Hts Hr.
  unfold extract_frames. unfold bind at 1. unfold VideoCapture. rewrite Hv.
  unfold bind at 1.
  destruct (mkdir_parents_run dir (log (EvOpen vp true) w)) as (w1 & -> & Ht1 & _);
    [done|].
  cbn [cap_opened cap_pending]. unfold bind at 1.
  destruct (read_loop_run dir r ts frames Hr Hts Hdec 0 0 w1) as (w2 & -> & Ht2);
    [done | by rewrite ceil_div_0 |].
  unfold bind at 1. cbn [cap_release emit ret].
  eexists. split; [done|].
  apply events_since_app. cbn [log trace]. rewrite Ht2, Ht1. cbn [log trace].
  unfold run_events. by rewrite <- !app_assoc.
Qed.

(** ** What was read and what was written *)

Lemma writes_app t1 t2 : writes (t1 ++ t2) = writes t1 ++ writes t2.
Proof. apply omap_app. Qed.

Lemma reads_app t1 t2 : reads (t1 ++ t2) = reads t1 ++ reads t2.
Proof. apply omap_app. Qed.

Lemma writes_frame_events dir r ts i f :
  writes (frame_events dir r ts i f)
  = if bool_decide (i mod r = 0)
    then [(os_path_join dir (frame_filename (i / Z.abs r)), resized ts f)]
    else [].
Proof. unfold frame_events. by case_bool_decide. Qed.

Lemma reads_frame_events dir r ts i f :
  reads (frame_events dir r ts i f) = [Some f].
Proof. unfold frame_events. by case_bool_decide. Qed.

Lemma accepted_indices_S r (n : nat) :
  accepted_indices r (Z.of_nat (S n))
  = accepted_indices r (Z.of_nat n)
    ++ (if bool_decide (Z.of_nat n mod r = 0) then [Z.of_nat n] else []).
Proof.
  unfold accepted_indices. rewrite seqZ_S, filter_app. f_equal.
  rewrite Z.add_0_l. rewrite filter_singleton; [| exact []].
  case_bool_decide; case_decide; done.
Qed.

Lemma accepted_indices_range r N i :
  i ∈ accepted_indices r N → 0 ≤ i < N ∧ i mod r = 0.
Proof.
  unfold accepted_indices. rewrite list_elem_of_filter, elem_of_seqZ. lia.
Qed.

Lemma reads_frames dir r ts (frames : list Frame) :
  reads (concat (imap (λ k f, frame_events dir r ts (Z.of_nat k) f) frames))
  = Some <$> frames.
Proof.
  induction frames as [|f rest IH] using rev_ind; [done|].
  rewrite imap_app, concat_app, reads_app, IH, fmap_app. f_equal.
  cbn [imap concat]. by rewrite app_nil_r, reads_frame_events.
Qed.

Lemma writes_frames dir r ts (frames : list Frame) :
  writes (concat (imap (λ k f, frame_events dir r ts (Z.of_nat k) f) frames))
  = (λ i, (os_path_join dir (frame_filename (i / Z.abs r)),
           resized ts (frames !!! Z.to_nat i)))
    <$> accepted_indices r (Z.of_nat (length frames)).
Proof.
  induction frames as [|f rest IH] using rev_ind; [done|].
  rewrite imap_app, concat_app, writes_app, IH.
  rewrite length_app, Nat.add_1_r, accepted_indices_S, fmap_app. f_equal.
  - apply list_fmap_ext. intros k i Hi.
    apply list_elem_of_lookup_2, accepted_indices_range in Hi.
    do 2 f_equal. symmetry. apply lookup_total_app_l. lia.
  - cbn [imap concat]. rewrite app_nil_r, writes_frame_events, Nat.add_0_r.
    case_bool_decide; [|done]. cbn [fmap list_fmap]. do 3 f_equal.
    rewrite Nat2Z.id. by rewrite list_lookup_total_middle.
Qed.

(** Every read succeeds until the source is exhausted. *)
Lemma reads_run_events vp dir r ts frames :
  reads (run_events vp dir r ts frames) = (Some <$> frames) ++ [None].
Proof.
  unfold run_events. by rewrite !reads_app, reads_frames.
Qed.

(** The frames written are the frames at the accepted indices, each under
    the identifier [i / |r|]. *)
Lemma writes_run_events vp dir r ts frames :
  writes (run_events vp dir r ts frames)
  = (λ i, (os_path_join dir (frame_filename (i / Z.abs r)),
           resized ts (frames !!! Z.to_nat i)))
    <$> accepted_indices r (Z.of_nat (length frames)).
Proof.
  unfold run_events. rewrite !writes_app, writes_frames.
  cbn [writes omap app]. by rewrite app_nil_r.
Qed.

(** ** The identifiers *)

Lemma accepted_indices_multiples r (n : nat) :
  r ≠ 0 →
  accepted_indices r (Z.of_nat n)
  = (λ k, k * Z.abs r) <$> seqZ 0 (ceil_div (Z.of_nat n) (Z.abs r)).
Proof.
  intros Hr. assert (0 < Z.abs r) as Ha by lia.
  induction n as [|n IH].
  - by rewrite ceil_div_0.
  - rewrite accepted_indices_S, IH.
    pose proof (ceil_div_bounds (Z.of_nat n) (Z.abs r) Ha) as [B1 B2].
    replace (Z.of_nat (S n)) with (Z.of_nat n + 1) by lia.
    case_bool_decide as Hm.
    + destruct (ceil_div_hit (Z.of_nat n) (Z.abs r) Ha
                  (proj1 (mod_abs_zero _ r) Hm)) as [Hc Hc'].
      rewrite Hc', <- Hc, seqZ_app, fmap_app by nia. f_equal.
      rewrite Z.add_0_l, seqZ_cons, seqZ_nil by lia. cbn [fmap list_fmap].
      f_equal. rewrite Hc.
      pose proof (Z.div_mod (Z.of_nat n) (Z.abs r)) as E.
      apply mod_abs_zero in Hm. lia.
    + rewrite ceil_div_miss, app_nil_r; [done | done |].
      intros H. by apply Hm, mod_abs_zero.
Qed.

Lemma length_accepted_indices r (n : nat) :
  r ≠ 0 →
  length (accepted_indices r (Z.of_nat n))
  = Z.to_nat (ceil_div (Z.of_nat n) (Z.abs r)).
Proof.
  intros Hr. by rewrite accepted_indices_multiples, length_fmap, length_seqZ.
Qed.

(** The identifiers [i / |r|] of the accepted indices count up from zero. *)
Lemma saved_indices r (n : nat) :
  r ≠ 0 →
  (λ i, i / Z.abs r) <$> accepted_indices r (Z.of_nat n)
  = seqZ 0 (ceil_div (Z.of_nat n) (Z.abs r)).
Proof.
  intros Hr. rewrite accepted_indices_multiples by done.
  rewrite <- list_fmap_compose. rewrite <- (list_fmap_id (seqZ _ _)) at 2.
  apply list_fmap_ext. intros _ k _. simpl. apply Z.div_mul. lia.
Qed.

(** ** File names *)

Lemma uint_of_string_zeros n s :
  NilEmpty.uint_of_string (zeros n +:+ s)
  = Nat.iter n Decimal.D0 <$> NilEmpty.uint_of_string s.
Proof.
  induction n as [|n IH].
  - change (zeros 0 +:+ s) with s. by destruct (NilEmpty.uint_of_string s).
  - change (zeros (S n) +:+ s) with (String "0"%char (zeros n +:+ s)).
    cbn [NilEmpty.uint_of_string]. rewrite IH.
    by destruct (NilEmpty.uint_of_string s).
Qed.

Lemma of_uint_zeros n d : N.of_uint (Nat.iter n Decimal.D0 d) = N.of_uint d.
Proof. induction n as [|n IH]; [done|]. by rewrite <- IH. Qed.

Lemma string_length_app s t :
  String.length (s +:+ t) = (String.length s + String.length t)%nat.
Proof.
  induction s as [|c s IH]; [done|].
  change (String c s +:+ t) with (String c (s +:+ t)). simpl. by rewrite IH.
Qed.

Lemma length_zeros n : String.length (zeros n) = n.
Proof. induction n; simpl; congruence. Qed.

(** The digits of an identifier read back as the identifier. *)
Lemma parse_format_05d k : 0 ≤ k → parse_digits (format_05d k) = Some k.
Proof.
  intros Hk. unfold format_05d, parse_digits, digits_of_N.
  rewrite (proj2 (Z.ltb_ge k 0) Hk), uint_of_string_zeros, NilEmpty.usu.
  simpl. rewrite of_uint_zeros, DecimalN.Unsigned.of_to.
  f_equal. lia.
Qed.

Lemma format_05d_inj j k : 0 ≤ j → 0 ≤ k → format_05d j = format_05d k → j = k.
Proof.
  intros Hj Hk E. apply (f_equal parse_digits) in E.
  rewrite !parse_format_05d in E by done. congruence.
Qed.

(** Padding brings the width to five and never truncates. *)
Lemma length_format_05d k :
  0 ≤ k →
  String.length (format_05d k)
  = (5 `max` String.length (digits_of_N (Z.abs_N k)))%nat.
Proof.
  intros Hk. unfold format_05d. rewrite (proj2 (Z.ltb_ge k 0) Hk).
  rewrite string_length_app, length_zeros. lia.
Qed.

Lemma string_app_inv_tail s1 s2 t : s1 +:+ t = s2 +:+ t → s1 = s2.
Proof.
  revert s2. induction s1 as [|c s1 IH]; intros [|c' s2] E.
  - done.
  - apply (f_equal String.length) in E.
    change (String c' s2 +:+ t) with (String c' (s2 +:+ t)) in E.
    change ("" +:+ t) with t in E. simpl in E. rewrite string_length_app in E. lia.
  - apply (f_equal String.length) in E.
    change (String c s1 +:+ t) with (String c (s1 +:+ t)) in E.
    change ("" +:+ t) with t in E. simpl in E. rewrite string_length_app in E. lia.
  - change (String c s1 +:+ t) with (String c (s1 +:+ t)) in E.
    change (String c' s2 +:+ t) with (String c' (s2 +:+ t)) in E.
    injection E as -> E. f_equal. by apply IH.
Qed.

Lemma frame_filename_inj j k :
  0 ≤ j → 0 ≤ k → frame_filename j = frame_filename k → j = k.
Proof.
  unfold frame_filename. intros Hj Hk E.
  apply (inj (String.append "frame_")) in E.
  apply string_app_inv_tail in E. by apply format_05d_inj.
Qed.

(** A frame file name is a plain name: joining it to a directory keeps
    the directory in front. *)
Lemma starts_with_sep_frame_filename k : starts_with_sep (frame_filename k) = false.
Proof. done. Qed.

Lemma os_path_join_frame_inj dir j k :
  0 ≤ j → 0 ≤ k →
  os_path_join dir (frame_filename j) = os_path_join dir (frame_filename k) →
  j = k.
Proof.
  unfold os_path_join. rewrite !starts_with_sep_frame_filename. intros Hj Hk E.
  apply frame_filename_inj; [done..|].
  destruct (_ || _).
  - by apply (inj (String.append dir)) in E.
  - apply (inj (String.append dir)) in E.
    by apply (inj (String.append "/")) in E.
Qed.

(** *** How many digits a number has *)

Lemma to_lu_tenfold_plus (p : positive) (r : N) :
  (r < 10)%N →
  ∃ d, DecimalPos.Unsigned.to_lu (10 * N.pos p + r) = d ∧
       Decimal.nb_digits d = S (Decimal.nb_digits (DecimalPos.Unsigned.to_lu (N.pos p))).
Proof.
  intros Hr.
  assert (∃ m : nat, (m < 10)%nat ∧ r = N.of_nat m) as (m & Hm & ->).
  { exists (N.to_nat r). split; lia. }
  assert (∀ m : nat, (10 * N.pos p + N.of_nat m)%N
                     = Nat.iter m N.succ (10 * N.pos p)%N) as Hit.
  { clear. induction m as [|m IH]; [by rewrite N.add_0_r|].
    rewrite Nat2N.inj_succ, N.add_succ_r, IH. done. }
  rewrite Hit. eexists. split; [done|].
  do 10 (destruct m as [|m];
         [unfold Nat.iter; cbn [nat_rect];
          rewrite ?DecimalPos.Unsigned.to_lu_succ,
                  DecimalPos.Unsigned.to_ldec_tenfold; done|]).
  lia.
Qed.

Lemma nb_digits_to_lu_bound (k : nat) (n : N) :
  (n < 10 ^ N.of_nat (S k))%N →
  (Decimal.nb_digits (DecimalPos.Unsigned.to_lu n) ≤ S k)%nat.
Proof.
  revert n. induction k as [|k IH]; intros n Hn.
  - change (10 ^ N.of_nat 1)%N with 10%N in Hn.
    assert (∃ m : nat, (m < 10)%nat ∧ n = N.of_nat m) as (m & Hm & ->).
    { exists (N.to_nat n). split; lia. }
    do 10 (destruct m as [|m]; [done|]). lia.
  - pose proof (N.div_mod n 10) as E.
    pose proof (N.mod_lt n 10) as Hlt.
    destruct (n / 10)%N as [|p] eqn:Hq.
    + etrans; [apply (IH n)|lia].
      change (10 ^ N.of_nat 1)%N with 10%N.
      destruct k; [change (10 ^ N.of_nat 1)%N with 10%N; lia|].
      eapply N.lt_le_trans with 10%N; [lia|].
      change 10%N with (10 ^ 1)%N at 1. apply N.pow_le_mono_r; lia.
    + destruct (to_lu_tenfold_plus p (n mod 10)) as (d & Hd & Hlen); [lia|].
      rewrite <- E in Hd by done. rewrite Hd, Hlen.
      apply le_n_S, IH. rewrite <- Hq.
      apply N.Div0.div_lt_upper_bound.
      rewrite <- N.pow_succ_r', <- Nat2N.inj_succ. done.
Qed.

Lemma length_string_of_uint d :
  String.length (NilEmpty.string_of_uint d) = Decimal.nb_digits d.
Proof. induction d; simpl; congruence. Qed.

Lemma to_uint_rev_to_lu n :
  N.to_uint n = Decimal.rev (DecimalPos.Unsigned.to_lu n).
Proof. by destruct n. Qed.

Lemma length_digits_of_N (k : nat) (n : N) :
  (n < 10 ^ N.of_nat (S k))%N → (String.length (digits_of_N n) ≤ S k)%nat.
Proof.
  intros Hn. unfold digits_of_N.
  rewrite length_string_of_uint, to_uint_rev_to_lu, DecimalFacts.nb_digits_rev.
  by apply nb_digits_to_lu_bound.
Qed.

(** Up to 100000 saved frames, the identifier has exactly five digits. *)
Lemma length_format_05d_small k :
  0 ≤ k < 100000 → String.length (format_05d k) = 5%nat.
Proof.
  intros Hk. rewrite length_format_05d by lia.
  pose proof (length_digits_of_N 4 (Z.abs_N k)) as H.
  change (10 ^ N.of_nat 5)%N with 100000%N in H. lia.
Qed.

Lemma accepted_indices_lookup r (n k : nat) i :
  r ≠ 0 → accepted_indices r (Z.of_nat n) !! k = Some i → i = Z.of_nat k * Z.abs r.
Proof.
  intros Hr. rewrite accepted_indices_multiples, list_lookup_fmap by done.
  destruct (seqZ _ _ !! k) as [j|] eqn:Hj; [|done].
  apply lookup_seqZ in Hj as [-> _]. intros [= <-]. lia.
Qed.

Lemma StronglySorted_seqZ m n : StronglySorted Z.lt (seqZ m n).
Proof.
  unfold seqZ. generalize (Z.to_nat n) as len. clear n. intros len.
  apply (StronglySorted_fmap _ lt); [lia|].
  generalize 0%nat as a. induction len as [|len IH]; intros a; [constructor|].
  cbn [seq]. constructor; [apply IH|].
  apply Forall_forall. intros j Hj. apply elem_of_seq in Hj. lia.
Qed.

Lemma StronglySorted_accepted_indices r (n : nat) :
  r ≠ 0 → StronglySorted Z.lt (accepted_indices r (Z.of_nat n)).
Proof.
  intros Hr. rewrite accepted_indices_multiples by done.
  apply (StronglySorted_fmap _ Z.lt); [nia | apply StronglySorted_seqZ].
Qed.

(** The paths written, in order. *)
Lemma written_paths vp dir r ts frames :
  r ≠ 0 →
  (writes (run_events vp dir r ts frames)).*1
  = (λ k, os_path_join dir (frame_filename k))
    <$> seqZ 0 (ceil_div (Z.of_nat (length frames)) (Z.abs r)).
Proof.
  intros Hr. rewrite writes_run_events, <- saved_indices by done.
  by rewrite <- !list_fmap_compose.
Qed.

(** The images written, in order. *)
Lemma written_images vp dir r ts frames :
  (writes (run_events vp dir r ts frames)).*2
  = (λ i, resized ts (frames !!! Z.to_nat i))
    <$> accepted_indices r (Z.of_nat (length frames)).
Proof. rewrite writes_run_events. by rewrite <- !list_fmap_compose. Qed.

(** A negative stride selects like its absolute value. *)
Lemma py_mod_opp a b :
  match py_mod a (- b), py_mod a b with
  | Ok m, Ok m' => (m =? 0) = (m' =? 0)
  | Raise e, Raise e' => e = e'
  | _, _ => False
  end.
Proof.
  unfold py_mod. destruct (Z.eqb_spec b 0) as [->|Hb]; [done|].
  rewrite (proj2 (Z.eqb_neq (- b) 0)) by lia.
  assert (a mod - b = 0 ↔ a mod b = 0) as Hiff.
  { rewrite !Z.mod_divide by lia. apply Z.divide_opp_l. }
  destruct (Z.eqb_spec (a mod - b) 0), (Z.eqb_spec (a mod b) 0); tauto.
Qed.

Lemma read_loop_opp dir r ts opened pending :
  ∀ fc sc w,
  read_loop dir (- r) ts opened pending fc sc w
  = read_loop dir r ts opened pending fc sc w.
Proof.
  induction pending as [|f rest IH]; intros fc sc w; [done|].
  cbn [read_loop]. destruct opened; [|done]. cbn [negb].
  unfold bind, lift, emit, ret.
  pose proof (py_mod_opp fc r) as Hm.
  destruct (py_mod fc (- r)) as [m|e], (py_mod fc r) as [m'|e']; try done.
  - rewrite Hm. destruct (m' =? 0); [|apply IH].
    destruct (resize_image f ts) as [img|]; [|done].
    destruct (cv2_imwrite _ img _) as [[b|e] w1]; [apply IH | done].
  - by subst.
Qed.

Lemma extract_frames_opp vp dir r ts w :
  extract_frames vp dir (- r) ts w = extract_frames vp dir r ts w.
Proof.
  unfold extract_frames, bind.
  destruct (VideoCapture vp w) as [[cap|e] w1]; [|done].
  destruct (mkdir_parents dir w1) as [[[]|e] w2]; [|done].
  by rewrite read_loop_opp.
Qed.

(** ** The scenarios of the specification *)

Example accepted_indices_10_3 : accepted_indices 3 10 = [0; 3; 6; 9].
Proof. reflexivity. Qed.

Example accepted_indices_5_30 : accepted_indices 30 5 = [0].
Proof. reflexivity. Qed.

Example scenario_10_3 :
  let out := extract_frames "clip.mov" "out" 3 (224, 224)
               (world_with "clip.mov" (VideoFile (clip 10))) in
  out.1 = Ok 4 ∧
  (writes (trace out.2)).*1
  = ["out/frame_00000.png"; "out/frame_00001.png";
     "out/frame_00002.png"; "out/frame_00003.png"] ∧
  (writes (trace out.2)).*2
  = resized (224, 224) <$> [hd_frame 0; hd_frame 3; hd_frame 6; hd_frame 9].
Proof. vm_compute. done. Qed.

Example scenario_5_30 :
  let out := extract_frames "clip.mov" "out" 30 (224, 224)
               (world_with "clip.mov" (VideoFile (clip 5))) in
  out.1 = Ok 1 ∧
  writes (trace out.2)
  = [("out/frame_00000.png", resized (224, 224) (hd_frame 0))].
Proof. vm_compute. done. Qed.

Example scenario_1920x1080 :
  resize_image {| width := 1920; height := 1080; content := 0 |} (224, 224)
  = Ok {| width := 224; height := 224; content := 0 |}.
Proof. reflexivity. Qed.

Example format_05d_samples :
  format_05d 0 = "00000" ∧ format_05d 42 = "00042" ∧
  format_05d 99999 = "99999" ∧ format_05d 100000 = "100000".
Proof. done. Qed.

(** * The claims *)

(** C1. For a stride [r >= 1] and a source of [N] frames, a run of
    [extract_frames] reads the frames one after the other until the source
    is exhausted, writes exactly the frames whose read index [i] has
    [i mod r = 0], and returns [ceil(N / r)], the number of such indices. *)
Theorem extract_frames_samples_every_rth w vp dir r ts frames :
  holds_video w vp frames → can_mkdir w dir → valid_size ts → 1 ≤ r →
  ∃ w', extract_frames vp dir r ts w
          = (Ok (ceil_div (Z.of_nat (length frames)) r), w') ∧
        r * (ceil_div (Z.of_nat (length frames)) r - 1) < Z.of_nat (length frames) ∧
        Z.of_nat (length frames) ≤ r * ceil_div (Z.of_nat (length frames)) r ∧
        reads (events_since w w') = (Some <$> frames) ++ [None] ∧
        (writes (events_since w w')).*2
          = (λ i, resized ts (frames !!! Z.to_nat i))
            <$> accepted_indices r (Z.of_nat (length frames)) ∧
        Z.of_nat (length (accepted_indices r (Z.of_nat (length frames))))
          = ceil_div (Z.of_nat (length frames)) r.
Proof.
  intros Hv Hdir Hts Hr.
  destruct (extract_frames_run w vp dir r ts frames) as (w' & Hrun & Hev);
    [done | done | done | lia |].
  rewrite Z.abs_eq in Hrun by lia.
  destruct (ceil_div_bounds (Z.of_nat (length frames)) r) as [B1 B2]; [lia|].
  exists w'. split_and!; [done | done | done | | |].
  - rewrite Hev. apply reads_run_events.
  - rewrite Hev. apply written_images.
  - rewrite length_accepted_indices, Z.abs_eq by lia. nia.
Qed.

Lemma extract_frames_samples_every_rth_witness :
  (∃ w', extract_frames "clip.mov" "out" 3 (224, 224)
           (world_with "clip.mov" (VideoFile (clip 10)))
         = (Ok 4, w') ∧
         (writes (events_since (world_with "clip.mov" (VideoFile (clip 10))) w')).*2
         = (λ i, resized (224, 224) (clip 10 !!! Z.to_nat i)) <$> [0; 3; 6; 9]) ∧
  (∃ w', extract_frames "clip.mov" "out" 30 (224, 224)
           (world_with "clip.mov" (VideoFile (clip 5)))
         = (Ok 1, w') ∧
         (writes (events_since (world_with "clip.mov" (VideoFile (clip 5))) w')).*2
         = (λ i, resized (224, 224) (clip 5 !!! Z.to_nat i)) <$> [0]).
Proof.
  split.
  - destruct (extract_frames_samples_every_rth
                (world_with "clip.mov" (VideoFile (clip 10)))
                "clip.mov" "out" 3 (224, 224) (clip 10))
      as (w' & Hrun & _ & _ & _ & Hw & _); [env_ok..|].
    exists w'. split; [exact Hrun | exact Hw].
  - destruct (extract_frames_samples_every_rth
                (world_with "clip.mov" (VideoFile (clip 5)))
                "clip.mov" "out" 30 (224, 224) (clip 5))
      as (w' & Hrun & _ & _ & _ & Hw & _); [env_ok..|].
    exists w'. split; [exact Hrun | exact Hw].
Defined.

(** C2. For a stride [r >= 1], the identifiers given to the saved frames
    are [0, 1, ..., count - 1], each once: the k-th frame written goes to
    [frame_<k as 05d>.png] in the output directory, no two writes share a
    path, the digits read back as [k], the first is [00000], and below
    100000 saved frames the identifier has exactly five digits. *)
Theorem saved_identifiers_contiguous w vp dir r ts frames :
  holds_video w vp frames → can_mkdir w dir → valid_size ts → 1 ≤ r →
  ∃ count w',
    extract_frames vp dir r ts w = (Ok count, w') ∧
    (writes (events_since w w')).*1
      = (λ k, os_path_join dir ("frame_" +:+ format_05d k +:+ ".png"))
        <$> seqZ 0 count ∧
    NoDup (writes (events_since w w')).*1 ∧
    format_05d 0 = "00000" ∧
    ∀ k, 0 ≤ k < count →
         parse_digits (format_05d k) = Some k ∧
         (k < 100000 → String.length (format_05d k) = 5%nat).
Proof.
  intros Hv Hdir Hts Hr.
  destruct (extract_frames_run w vp dir r ts frames) as (w' & Hrun & Hev);
    [done | done | done | lia |].
  eexists _, w'. split; [exact Hrun|].
  rewrite Hev, written_paths by lia.
  split_and!; [done | | done |].
  - apply NoDup_fmap_2_strong; [|apply NoDup_seqZ].
    intros j k Hj Hk. apply elem_of_seqZ in Hj, Hk.
    apply os_path_join_frame_inj; lia.
  - intros k Hk. split; [apply parse_format_05d; lia|].
    intros Hsmall. apply length_format_05d_small. lia.
Qed.

Lemma saved_identifiers_contiguous_witness :
  ∃ w', extract_frames "clip.mov" "out" 3 (224, 224)
          (world_with "clip.mov" (VideoFile (clip 10)))
        = (Ok 4, w') ∧
        (writes (events_since (world_with "clip.mov" (VideoFile (clip 10))) w')).*1
        = ["out/frame_00000.png"; "out/frame_00001.png";
           "out/frame_00002.png"; "out/frame_00003.png"].
Proof.
  destruct (saved_identifiers_contiguous
              (world_with "clip.mov" (VideoFile (clip 10)))
              "clip.mov" "out" 3 (224, 224) (clip 10))
    as (count & w' & Hrun & Hw & _); [env_ok..|].
  assert (count = 4) as ->.
  { assert (extract_frames "clip.mov" "out" 3 (224, 224)
              (world_with "clip.mov" (VideoFile (clip 10))) = 
            (Ok count, w')) as E by exact Hrun.
    vm_compute in E. by injection E as <- _. }
  exists w'. split; [exact Hrun | exact Hw].
Defined.

(** C3. Whatever the size of the frames of the source, every frame a run
    writes has exactly the target size: the whole picture of an accepted
    frame is stretched to [target_size], whatever its aspect ratio. *)
Theorem written_frames_have_target_size w vp dir r ts frames :
  holds_video w vp frames → can_mkdir w dir → valid_size ts → r ≠ 0 →
  ∃ count w',
    extract_frames vp dir r ts w = (Ok count, w') ∧
    Z.of_nat (length (writes (events_since w w'))) = count ∧
    Forall (λ img, width img = ts.1 ∧ height img = ts.2 ∧
                   ∃ f, f ∈ frames ∧ content img = content f)
           (writes (events_since w w')).*2.
Proof.
  intros Hv Hdir Hts Hr.
  destruct (extract_frames_run w vp dir r ts frames) as (w' & Hrun & Hev);
    [done..|].
  eexists _, w'. split; [exact Hrun|]. rewrite Hev. split.
  - rewrite writes_run_events, length_fmap, length_accepted_indices by done.
    pose proof (ceil_div_bounds (Z.of_nat (length frames)) (Z.abs r)). nia.
  - rewrite written_images. apply Forall_fmap, Forall_forall.
    intros i Hi. apply accepted_indices_range in Hi as [Hi _]. simpl.
    split_and!; [done..|].
    destruct (lookup_lt_is_Some_2 frames (Z.to_nat i)) as [f Hf]; [lia|].
    exists f. rewrite (list_lookup_total_correct _ _ _ Hf).
    split; [by eapply list_elem_of_lookup_2 | done].
Qed.

Lemma written_frames_have_target_size_witness :
  ∃ w', extract_frames "clip.mov" "out" 3 (224, 224)
          (world_with "clip.mov" (VideoFile (clip 10)))
        = (Ok 4, w') ∧
        Forall (λ img, width img = 224 ∧ height img = 224 ∧
                       ∃ f, f ∈ clip 10 ∧ content img = content f)
          (writes (events_since (world_with "clip.mov" (VideoFile (clip 10))) w')).*2.
Proof.
  destruct (written_frames_have_target_size
              (world_with "clip.mov" (VideoFile (clip 10)))
              "clip.mov" "out" 3 (224, 224) (clip 10))
    as (count & w' & Hrun & _ & Hw); [env_ok..|].
  assert (count = 4) as ->.
  { assert (extract_frames "clip.mov" "out" 3 (224, 224)
              (world_with "clip.mov" (VideoFile (clip 10))) = 
            (Ok count, w')) as E by exact Hrun.
    vm_compute in E. by injection E as <- _. }
  exists w'. split; [exact Hrun | exact Hw].
Defined.

(** C6. With stride 1 every frame of the source is written, in the
    order of the source, and the frame at position [i] gets the
    identifier [i]. *)
Theorem stride_one_keeps_every_frame w vp dir ts frames :
  holds_video w vp frames → can_mkdir w dir → valid_size ts →
  ∃ w', extract_frames vp dir 1 ts w = (Ok (Z.of_nat (length frames)), w') ∧
        writes (events_since w w')
        = imap (λ i f, (os_path_join dir (frame_filename (Z.of_nat i)),
                        resized ts f)) frames.
Proof.
  intros Hv Hdir Hts.
  destruct (extract_frames_run w vp dir 1 ts frames) as (w' & Hrun & Hev);
    [done..|].
  assert (ceil_div (Z.of_nat (length frames)) (Z.abs 1) = Z.of_nat (length frames))
    as Hc by (apply ceil_div_unique; simpl; lia).
  rewrite Hc in Hrun. exists w'. split; [done|].
  rewrite Hev, writes_run_events, accepted_indices_multiples, Hc by done.
  rewrite <- list_fmap_compose. apply list_eq. intros i.
  rewrite list_lookup_fmap, list_lookup_imap.
  destruct (frames !! i) as [f|] eqn:Hf.
  - rewrite lookup_seqZ_lt by (apply lookup_lt_Some in Hf; lia). simpl.
    rewrite Z.add_0_l, Z.mul_1_r, Z.div_1_r, Nat2Z.id.
    by rewrite (list_lookup_total_correct _ _ _ Hf).
  - rewrite lookup_seqZ_ge by (apply lookup_ge_None in Hf; lia). done.
Qed.

Lemma stride_one_keeps_every_frame_witness :
  ∃ w', extract_frames "clip.mov" "out" 1 (224, 224)
          (world_with "clip.mov" (VideoFile (clip 3)))
        = (Ok 3, w') ∧
        writes (events_since (world_with "clip.mov" (VideoFile (clip 3))) w')
        = [("out/frame_00000.png", resized (224, 224) (hd_frame 0));
           ("out/frame_00001.png", resized (224, 224) (hd_frame 1));
           ("out/frame_00002.png", resized (224, 224) (hd_frame 2))].
Proof.
  destruct (stride_one_keeps_every_frame
              (world_with "clip.mov" (VideoFile (clip 3)))
              "clip.mov" "out" (224, 224) (clip 3))
    as (w' & Hrun & Hw); [env_ok..|].
  exists w'. split; [exact Hrun | exact Hw].
Defined.

(** C7. A source that opens and holds no frame gives the count 0 and no
    error, for every stride (so for every [r >= 1]): the first read
    reports the end of the sequence, nothing is written, the capture is
    released. *)
Theorem empty_source_yields_zero w vp dir r ts :
  fs w !! vp = Some (VideoFile []) → can_mkdir w dir →
  ∃ w', extract_frames vp dir r ts w = (Ok 0, w') ∧
        events_since w w' = [EvOpen vp true; EvMkdir dir; EvRead None; EvRelease].
Proof.
  intros Hv Hdir.
  unfold extract_frames. unfold bind at 1. unfold VideoCapture. rewrite Hv.
  unfold bind at 1.
  destruct (mkdir_parents_run dir (log (EvOpen vp true) w)) as (w1 & -> & Ht1 & _);
    [done|].
  cbn [cap_opened cap_pending read_loop negb]. unfold bind, emit, ret, cap_release.
  eexists. split; [done|].
  apply events_since_app. cbn [log trace]. rewrite Ht1. cbn [log trace].
  by rewrite <- !app_assoc.
Qed.

Lemma empty_source_yields_zero_witness :
  ∃ w', extract_frames "clip.mov" "out" 30 (224, 224)
          (world_with "clip.mov" (VideoFile []))
        = (Ok 0, w') ∧
        events_since (world_with "clip.mov" (VideoFile [])) w'
        = [EvOpen "clip.mov" true; EvMkdir "out"; EvRead None; EvRelease].
Proof.
  apply (empty_source_yields_zero (world_with "clip.mov" (VideoFile []))
           "clip.mov" "out" 30 (224, 224)); env_ok.
Defined.

(** C8. In a run with stride [r >= 1] a frame that is accepted is written
    right after it is read and before the next frame is read; the k-th
    frame written carries the identifier [k] and is the k-th accepted
    frame of the source, and the accepted read indices increase strictly:
    identifiers go up by one per write, in the order of the source. *)
Theorem frames_emitted_in_source_order w vp dir r ts frames :
  holds_video w vp frames → can_mkdir w dir → valid_size ts → 1 ≤ r →
  ∃ count w',
    extract_frames vp dir r ts w = (Ok count, w') ∧
    events_since w w'
      = [EvOpen vp true; EvMkdir dir]
        ++ concat (imap (λ i f, frame_events dir r ts (Z.of_nat i) f) frames)
        ++ [EvRead None; EvRelease] ∧
    writes (events_since w w')
      = imap (λ k i, (os_path_join dir (frame_filename (Z.of_nat k)),
                      resized ts (frames !!! Z.to_nat i)))
             (accepted_indices r (Z.of_nat (length frames))) ∧
    StronglySorted Z.lt (accepted_indices r (Z.of_nat (length frames))) ∧
    Z.of_nat (length (writes (events_since w w'))) = count.
Proof.
  intros Hv Hdir Hts Hr.
  destruct (extract_frames_run w vp dir r ts frames) as (w' & Hrun & Hev);
    [done | done | done | lia |].
  eexists _, w'. split; [exact Hrun|]. rewrite Hev.
  split_and!; [done | | apply StronglySorted_accepted_indices; lia |].
  - rewrite writes_run_events. apply list_eq. intros k.
    rewrite list_lookup_fmap, list_lookup_imap.
    destruct (accepted_indices _ _ !! k) as [i|] eqn:Hi; [|done].
    apply accepted_indices_lookup in Hi; [|lia]. simpl.
    by rewrite Hi, Z.div_mul by lia.
  - rewrite writes_run_events, length_fmap, length_accepted_indices by lia.
    pose proof (ceil_div_bounds (Z.of_nat (length frames)) (Z.abs r)). nia.
Qed.

Lemma frames_emitted_in_source_order_witness :
  ∃ w', extract_frames "clip.mov" "out" 2 (224, 224)
          (world_with "clip.mov" (VideoFile (clip 3)))
        = (Ok 2, w') ∧
        events_since (world_with "clip.mov" (VideoFile (clip 3))) w'
        = [EvOpen "clip.mov" true; EvMkdir "out";
           EvRead (Some (hd_frame 0));
           EvWrite "out/frame_00000.png" (resized (224, 224) (hd_frame 0));
           EvRead (Some (hd_frame 1));
           EvRead (Some (hd_frame 2));
           EvWrite "out/frame_00001.png" (resized (224, 224) (hd_frame 2));
           EvRead None; EvRelease].
Proof.
  destruct (frames_emitted_in_source_order
              (world_with "clip.mov" (VideoFile (clip 3)))
              "clip.mov" "out" 2 (224, 224) (clip 3))
    as (count & w' & Hrun & Hev & _); [env_ok..|].
  assert (count = 2) as ->.
  { assert (extract_frames "clip.mov" "out" 2 (224, 224)
              (world_with "clip.mov" (VideoFile (clip 3))) = 
            (Ok count, w')) as E by exact Hrun.
    vm_compute in E. by injection E as <- _. }
  exists w'. split; [exact Hrun | exact Hev].
Defined.

(** C9. A negative stride [r <= -1] raises nothing and selects exactly as
    [|r|] does, on every source that opens (empty or not): the two runs
    are the same run, it returns [ceil(N / |r|)] and writes the frames
    whose read index [i] has [i mod |r| = 0]. *)
Theorem negative_stride_selects_like_absolute w vp dir r ts frames :
  holds_video w vp frames → can_mkdir w dir → valid_size ts → r ≤ -1 →
  extract_frames vp dir r ts w = extract_frames vp dir (Z.abs r) ts w ∧
  ∃ w', extract_frames vp dir r ts w
          = (Ok (ceil_div (Z.of_nat (length frames)) (Z.abs r)), w') ∧
        (writes (events_since w w')).*2
          = (λ i, resized ts (frames !!! Z.to_nat i))
            <$> filter (λ i, i mod Z.abs r = 0) (seqZ 0 (Z.of_nat (length frames))).
Proof.
  intros Hv Hdir Hts Hr.
  assert (extract_frames vp dir r ts w = extract_frames vp dir (Z.abs r) ts w) as E.
  { rewrite Z.abs_neq by lia. symmetry. apply extract_frames_opp. }
  split; [done|]. rewrite E.
  destruct (extract_frames_run w vp dir (Z.abs r) ts frames) as (w' & Hrun & Hev);
    [done | done | done | lia |].
  rewrite Z.abs_idemp in Hrun.
  exists w'. split; [done|]. rewrite Hev. apply written_images.
Qed.

Lemma negative_stride_selects_like_absolute_witness :
  ∃ w', extract_frames "clip.mov" "out" (-3) (224, 224)
          (world_with "clip.mov" (VideoFile (clip 10)))
        = (Ok 4, w') ∧
        (writes (events_since (world_with "clip.mov" (VideoFile (clip 10))) w')).*2
        = resized (224, 224) <$> [hd_frame 0; hd_frame 3; hd_frame 6; hd_frame 9].
Proof.
  destruct (negative_stride_selects_like_absolute
              (world_with "clip.mov" (VideoFile (clip 10)))
              "clip.mov" "out" (-3) (224, 224) (clip 10))
    as (_ & w' & Hrun & Hw); [env_ok..|].
  exists w'. split; [exact Hrun | exact Hw].
Defined.

(** C10. When [video_path] names nothing in the file system,
    [process_local_video] raises [FileNotFoundError] and leaves the world
    as it found it: no directory is created, no frame is read or written,
    nothing is printed. *)
Theorem missing_video_raises_before_any_effect w vp dir r ts :
  fs w !! vp = None →
  process_local_video vp dir r ts w
  = (Raise (FileNotFoundError ("Video file not found: " +:+ vp)), w).
Proof.
  intros Hv. unfold process_local_video, bind, os_path_exists.
  rewrite Hv. rewrite bool_decide_eq_false_2; [done|].
  by intros [? ?].
Qed.

Lemma missing_video_raises_before_any_effect_witness :
  process_local_video "drones3.mov" "suas_dataset" 3 (224, 224)
    (world_with "other.mov" (VideoFile (clip 3)))
  = (Raise (FileNotFoundError "Video file not found: drones3.mov"),
     world_with "other.mov" (VideoFile (clip 3))).
Proof.
  apply (missing_video_raises_before_any_effect
           (world_with "other.mov" (VideoFile (clip 3)))
           "drones3.mov" "suas_dataset" 3 (224, 224)).
  vm_compute. reflexivity.
Defined.

(** C4, as the code has it. With stride 0 nothing is checked before the
    loop: on a source that opens and holds a frame, the output directory
    is created and the first frame is read, then the stride test raises
    [ZeroDivisionError]; no frame is written and the capture is not
    released. *)
Theorem zero_stride_fails_at_first_stride_test w vp dir ts f rest :
  fs w !! vp = Some (VideoFile (f :: rest)) → can_mkdir w dir →
  ∃ w', extract_frames vp dir 0 ts w = (Raise ZeroDivisionError, w') ∧
        events_since w w' = [EvOpen vp true; EvMkdir dir; EvRead (Some f)].
Proof.
  intros Hv Hdir.
  unfold extract_frames. unfold bind at 1. unfold VideoCapture. rewrite Hv.
  unfold bind at 1.
  destruct (mkdir_parents_run dir (log (EvOpen vp true) w)) as (w1 & -> & Ht1 & _);
    [done|].
  cbn [cap_opened cap_pending read_loop negb]. unfold bind, emit, lift.
  cbn [py_mod Z.eqb].
  eexists. split; [done|].
  apply events_since_app. cbn [log trace]. rewrite Ht1. cbn [log trace].
  by rewrite <- !app_assoc.
Qed.

Lemma zero_stride_fails_at_first_stride_test_witness :
  ∃ w', extract_frames "clip.mov" "out" 0 (224, 224)
          (world_with "clip.mov" (VideoFile (clip 3)))
        = (Raise ZeroDivisionError, w') ∧
        events_since (world_with "clip.mov" (VideoFile (clip 3))) w'
        = [EvOpen "clip.mov" true; EvMkdir "out"; EvRead (Some (hd_frame 0))].
Proof.
  apply (zero_stride_fails_at_first_stride_test
           (world_with "clip.mov" (VideoFile (clip 3)))
           "clip.mov" "out" (224, 224) (hd_frame 0) [hd_frame 1; hd_frame 2]); env_ok.
Defined.

(** C4 as stated fails: with stride 0 and a clip of three frames, the run
    does not end in an error raised before any read; a frame has been
    read by the time the error is raised. *)
Lemma zero_stride_reads_before_failing :
  ¬ ∃ e w', extract_frames "clip.mov" "out" 0 (224, 224)
              (world_with "clip.mov" (VideoFile (clip 3)))
            = (Raise e, w') ∧
            reads (events_since (world_with "clip.mov" (VideoFile (clip 3))) w') = [].
Proof.
  intros (e & w' & Hrun & Hreads).
  vm_compute in Hrun. injection Hrun as <- <-. vm_compute in Hreads. discriminate.
Qed.

(** C5, as the code has it. When the source cannot be opened (the path is
    missing or does not hold a decodable video), [extract_frames] raises
    nothing: it creates the output directory, reads and writes no frame,
    and returns the count 0, the count of an opened source without
    frames. *)
Theorem unopened_source_counts_zero w vp dir r ts :
  (∀ frames, fs w !! vp ≠ Some (VideoFile frames)) → can_mkdir w dir →
  ∃ w', extract_frames vp dir r ts w = (Ok 0, w') ∧
        events_since w w' = [EvOpen vp false; EvMkdir dir; EvRelease].
Proof.
  intros Hv Hdir.
  assert (VideoCapture vp w
          = (Ok {| cap_opened := false; cap_pending := [] |},
             log (EvOpen vp false) w)) as Hcap.
  { unfold VideoCapture. destruct (fs w !! vp) as [[]|] eqn:E; try done.
    by destruct (Hv frames). }
  unfold extract_frames. unfold bind at 1. rewrite Hcap.
  unfold bind at 1.
  destruct (mkdir_parents_run dir (log (EvOpen vp false) w)) as (w1 & -> & Ht1 & _);
    [done|].
  cbn [cap_opened cap_pending read_loop negb]. unfold bind, emit, ret, cap_release.
  eexists. split; [done|].
  apply events_since_app. cbn [log trace]. rewrite Ht1. cbn [log trace].
  by rewrite <- !app_assoc.
Qed.

Lemma unopened_source_counts_zero_witness :
  ∃ w', extract_frames "notes.txt" "out" 30 (224, 224)
          (world_with "notes.txt" OtherFile)
        = (Ok 0, w') ∧
        events_since (world_with "notes.txt" OtherFile) w'
        = [EvOpen "notes.txt" false; EvMkdir "out"; EvRelease].
Proof.
  apply (unopened_source_counts_zero (world_with "notes.txt" OtherFile)
           "notes.txt" "out" 30 (224, 224)).
  - intros frames. vm_compute. discriminate.
  - env_ok.
Defined.

(** C5 as stated fails: a file that exists and is not a video is reported
    by neither [process_local_video] nor [extract_frames]; both return
    the count 0. *)
Lemma unopened_source_is_not_reported :
  (¬ ∃ e w', process_local_video "notes.txt" "out" 30 (224, 224)
               (world_with "notes.txt" OtherFile) = (Raise e, w')) ∧
  (¬ ∃ e w', extract_frames "notes.txt" "out" 30 (224, 224)
               (world_with "notes.txt" OtherFile) = (Raise e, w')) ∧
  (process_local_video "notes.txt" "out" 30 (224, 224)
     (world_with "notes.txt" OtherFile)).1 = Ok 0 ∧
  (process_local_video "empty.mov" "out" 30 (224, 224)
     (world_with "empty.mov" (VideoFile []))).1 = Ok 0.
Proof.
  split_and!.
  - intros (e & w' & Hrun). vm_compute in Hrun. discriminate.
  - intros (e & w' & Hrun). vm_compute in Hrun. discriminate.
  - vm_compute. reflexivity.
  - vm_compute. reflexivity.
Qed.

(** * Further properties *)

(** ** What a run does to the file system *)

Lemma cv2_imwrite_effects p img w :
  ∃ b, cv2_imwrite p img w
       = (Ok b, {| fs := write_node (fs w) (p, img);
                   trace := trace w ++ [EvWrite p img] |}).
Proof.
  unfold cv2_imwrite, write_node. simpl.
  destruct (fs w !! p) as [[]|]; simpl; eauto.
Qed.

Lemma mkdir_parents_effects p w :
  trace (mkdir_parents p w).2 = trace w ++ [EvMkdir p] ∧
  (∀ q, q ≠ p → fs (mkdir_parents p w).2 !! q = fs w !! q) ∧
  (is_Some (fs w !! p) → fs (mkdir_parents p w).2 = fs w) ∧
  (fs w !! p = None → fs (mkdir_parents p w).2 !! p = Some Directory).
Proof.
  unfold mkdir_parents. destruct (fs w !! p) as [[]|] eqn:E; simpl;
    (split_and!; [done | | | ]); try done.
  - intros q Hq. by rewrite lookup_insert_ne.
  - intros _. by rewrite lookup_insert_eq.
Qed.

(** Whatever its outcome, the loop only reads, and writes frame files of
    the output directory; the file system changes by these writes. *)
Lemma read_loop_effects dir r ts opened pending :
  ∀ fc sc w, 0 ≤ sc →
  ∃ res w' t,
    read_loop dir r ts opened pending fc sc w = (res, w') ∧
    trace w' = trace w ++ t ∧
    Forall (loop_event dir) t ∧
    fs w' = foldl write_node (fs w) (writes t).
Proof.
  induction pending as [|f rest IH]; intros fc sc w Hsc.
  - destruct opened; simpl.
    + eexists _, _, [EvRead None].
      split_and!; [done | done | by repeat constructor | done].
    + eexists _, _, []. split_and!; [done | by rewrite app_nil_r | constructor | done].
  - cbn [read_loop]. destruct opened; cbn [negb]; cycle 1.
    { eexists _, _, [].
      split_and!; [done | by rewrite app_nil_r | constructor | done]. }
    unfold bind at 1. cbn [emit]. unfold bind at 1. unfold lift at 1.
    destruct (py_mod fc r) as [m|e]; cycle 1.
    { eexists _, _, [EvRead (Some f)].
      split_and!; [done | done | by repeat constructor | done]. }
    unfold bind at 1. destruct (m =? 0).
    + unfold bind at 1. unfold lift at 1.
      destruct (resize_image f ts) as [img|e]; cycle 1.
      { eexists _, _, [EvRead (Some f)].
        split_and!; [done | done | by repeat constructor | done]. }
      unfold bind at 1.
      destruct (cv2_imwrite_effects (os_path_join dir (frame_filename sc)) img
                  (log (EvRead (Some f)) w)) as [b ->].
      cbn [ret].
      destruct (IH (fc + 1) (sc + 1)
                  {| fs := write_node (fs (log (EvRead (Some f)) w))
                             (os_path_join dir (frame_filename sc), img);
                     trace := trace (log (EvRead (Some f)) w)
                              ++ [EvWrite (os_path_join dir (frame_filename sc)) img] |})
        as (res & w' & t & -> & Ht & Hev & Hfs); [lia|].
      exists res, w',
        (EvRead (Some f) :: EvWrite (os_path_join dir (frame_filename sc)) img :: t).
      split_and!; [done | | |].
      * rewrite Ht. cbn [log trace]. by rewrite <- !app_assoc.
      * constructor; [done|]. constructor; [|done]. by exists sc.
      * rewrite Hfs. done.
    + cbn [ret].
      destruct (IH (fc + 1) sc (log (EvRead (Some f)) w))
        as (res & w' & t & -> & Ht & Hev & Hfs); [lia|].
      exists res, w', (EvRead (Some f) :: t). split_and!; [done | | |].
      * rewrite Ht. cbn [log trace]. by rewrite <- !app_assoc.
      * by constructor.
      * rewrite Hfs. done.
Qed.

Lemma mkdir_parents_fs p w : fs (mkdir_parents p w).2 = with_directory p (fs w).
Proof.
  unfold mkdir_parents, with_directory. by destruct (fs w !! p) as [[]|].
Qed.

Lemma writes_loop_events dir t p img :
  Forall (loop_event dir) t → (p, img) ∈ writes t →
  ∃ k, 0 ≤ k ∧ p = os_path_join dir (frame_filename k).
Proof.
  intros Hev Hin. unfold writes in Hin. apply list_elem_of_omap in Hin as (e & He & Hp).
  rewrite Forall_forall in Hev. specialize (Hev e He).
  destruct e; try done. by injection Hp as <- <-.
Qed.

Lemma loop_events_no_release dir t : Forall (loop_event dir) t → EvRelease ∉ t.
Proof.
  intros Hev Hin. rewrite Forall_forall in Hev. by apply Hev in Hin.
Qed.

Lemma write_node_other m pi q : q ≠ pi.1 → write_node m pi !! q = m !! q.
Proof.
  intros Hq. unfold write_node.
  destruct (m !! pi.1) as [[]|]; by rewrite ?lookup_insert_ne.
Qed.

Lemma foldl_write_node_other ws : ∀ m q,
  q ∉ ws.*1 → foldl write_node m ws !! q = m !! q.
Proof.
  induction ws as [|pi ws IH]; intros m q Hq; [done|].
  cbn [foldl]. rewrite fmap_cons, not_elem_of_cons in Hq. destruct Hq as [Hq1 Hq2].
  rewrite IH by done. by apply write_node_other.
Qed.

Lemma write_node_keeps m pi q :
  (is_Some (m !! q) → is_Some (write_node m pi !! q)) ∧
  (m !! q = Some Directory → write_node m pi !! q = Some Directory).
Proof.
  destruct (decide (q = pi.1)) as [->|Hq].
  - unfold write_node. destruct (m !! pi.1) as [[]|] eqn:E;
      rewrite ?E, ?lookup_insert_eq; split; by eauto.
  - by rewrite write_node_other.
Qed.

Lemma foldl_write_node_keeps ws : ∀ m q,
  (is_Some (m !! q) → is_Some (foldl write_node m ws !! q)) ∧
  (m !! q = Some Directory → foldl write_node m ws !! q = Some Directory).
Proof.
  induction ws as [|pi ws IH]; intros m q; [done|].
  cbn [foldl]. destruct (IH (write_node m pi) q) as [IH1 IH2].
  destruct (write_node_keeps m pi q) as [K1 K2]. split; auto.
Qed.

Lemma with_directory_other p m q : q ≠ p → with_directory p m !! q = m !! q.
Proof.
  intros Hq. unfold with_directory.
  destruct (m !! p); by rewrite ?lookup_insert_ne.
Qed.

Lemma with_directory_keeps p m q :
  is_Some (m !! q) → with_directory p m !! q = m !! q.
Proof.
  intros Hq. unfold with_directory. destruct (m !! p) eqn:E; [done|].
  rewrite lookup_insert_ne; [done|]. intros ->. rewrite E in Hq. by destruct Hq.
Qed.

(** Every run of [extract_frames], whatever its outcome: the capture is
    opened, the directory made, the loop runs, and the capture is
    released when the loop returned. *)
Lemma extract_frames_effects vp dir r ts w :
  ∃ res w' b t,
    extract_frames vp dir r ts w = (res, w') ∧
    events_since w w'
    = EvOpen vp b :: EvMkdir dir :: t
      ++ (match res with Ok _ => [EvRelease] | Raise _ => [] end) ∧
    Forall (loop_event dir) t ∧
    fs w' = foldl write_node (with_directory dir (fs w)) (writes t).
Proof.
  unfold extract_frames. unfold bind at 1.
  assert (∃ b cap, VideoCapture vp w = (Ok cap, log (EvOpen vp b) w))
    as (b & cap & ->).
  { unfold VideoCapture. destruct (fs w !! vp) as [[]|]; eauto. }
  unfold bind at 1.
  pose proof (mkdir_parents_effects dir (log (EvOpen vp b) w)) as (Ht1 & _).
  pose proof (mkdir_parents_fs dir (log (EvOpen vp b) w)) as Hfs1.
  destruct (mkdir_parents dir (log (EvOpen vp b) w)) as [[[]|e] w1];
    cbn [fst snd log trace fs] in Ht1, Hfs1.
  - unfold bind at 1.
    destruct (read_loop_effects dir r ts (cap_opened cap) (cap_pending cap) 0 0 w1)
      as (res & w2 & t & -> & Ht2 & Hev & Hfs2); [done|].
    destruct res as [c|e].
    + unfold bind, cap_release, emit, ret.
      eexists _, _, b, t. split_and!; [done | | done |].
      * apply events_since_app. cbn [log trace]. rewrite Ht2, Ht1.
        by rewrite <- !app_assoc.
      * cbn [log fs]. by rewrite Hfs2, Hfs1.
    + eexists _, _, b, t. split_and!; [done | | done |].
      * apply events_since_app. rewrite Ht2, Ht1, app_nil_r.
        by rewrite <- !app_assoc.
      * by rewrite Hfs2, Hfs1.
  - eexists _, _, b, []. split_and!; [done | | constructor |].
    + apply events_since_app. rewrite Ht1. by rewrite <- !app_assoc.
    + by rewrite Hfs1.
Qed.

Lemma untouched_paths vp dir r ts w q :
  q ≠ dir → (∀ k, 0 ≤ k → q ≠ os_path_join dir (frame_filename k)) →
  fs (extract_frames vp dir r ts w).2 !! q = fs w !! q.
Proof.
  intros Hdir Hq.
  destruct (extract_frames_effects vp dir r ts w)
    as (res & w' & b & t & -> & _ & Hev & Hfs). cbn [snd]. rewrite Hfs.
  rewrite foldl_write_node_other; [by apply with_directory_other|].
  intros Hin. apply list_elem_of_fmap in Hin as ([p img] & -> & Hin).
  destruct (writes_loop_events dir t p img Hev Hin) as (k & Hk & ->).
  by apply (Hq k).
Qed.

Lemma with_directory_dir p m :
  m !! p = None ∨ m !! p = Some Directory → with_directory p m !! p = Some Directory.
Proof.
  unfold with_directory. intros [E|E]; rewrite E; [|done].
  by rewrite lookup_insert_eq.
Qed.

Lemma directories_stay vp dir r ts w q :
  with_directory dir (fs w) !! q = Some Directory →
  fs (extract_frames vp dir r ts w).2 !! q = Some Directory.
Proof.
  intros Hq.
  destruct (extract_frames_effects vp dir r ts w)
    as (res & w' & b & t & -> & _ & Hev & Hfs). cbn [snd]. rewrite Hfs.
  by apply foldl_write_node_keeps.
Qed.



(** X2. A run of [extract_frames] never deletes anything and never
    replaces a directory: a path that existed before the run exists after
    it, and a directory is still a directory. *)
Theorem extract_frames_never_deletes vp dir r ts w q :
  (is_Some (fs w !! q) → is_Some (fs (extract_frames vp dir r ts w).2 !! q)) ∧
  (fs w !! q = Some Directory →
   fs (extract_frames vp dir r ts w).2 !! q = Some Directory).
Proof.
  destruct (extract_frames_effects vp dir r ts w)
    as (res & w' & b & t & -> & _ & Hev & Hfs). cbn [snd]. rewrite Hfs.
  destruct (foldl_write_node_keeps (writes t) (with_directory dir (fs w)) q)
    as [K1 K2].
  split.
  - intros Hq. apply K1. by rewrite with_directory_keeps.
  - intros Hq. apply K2. by rewrite with_directory_keeps.
Qed.

(** X3. The capture is released exactly when [extract_frames] returns:
    a run that returns a count ends with the release, which happens once;
    a run that raises never releases the capture. *)
Theorem capture_released_only_on_return vp dir r ts w :
  match (extract_frames vp dir r ts w).1 with
  | Ok _ =>
      ∃ t, events_since w (extract_frames vp dir r ts w).2 = t ++ [EvRelease] ∧
           EvRelease ∉ t
  | Raise _ => EvRelease ∉ events_since w (extract_frames vp dir r ts w).2
  end.
Proof.
  destruct (extract_frames_effects vp dir r ts w)
    as (res & w' & b & t & -> & Hevs & Hev & _). cbn [fst snd].
  rewrite Hevs. apply loop_events_no_release in Hev.
  destruct res as [c|e].
  - exists (EvOpen vp b :: EvMkdir dir :: t). split; [done|].
    rewrite !not_elem_of_cons. done.
  - rewrite app_nil_r, !not_elem_of_cons. done.
Qed.

Lemma extract_frames_never_deletes_witness :
  is_Some (fs (extract_frames "clip.mov" "out" 3 (224, 224)
                 (world_with "clip.mov" (VideoFile (clip 10)))).2 !! "clip.mov").
Proof.
  apply (extract_frames_never_deletes "clip.mov" "out" 3 (224, 224)
           (world_with "clip.mov" (VideoFile (clip 10))) "clip.mov").
  vm_compute. eexists. reflexivity.
Defined.

(** ** Error paths of [extract_frames] *)

(** X4. When the output directory path is taken by a file,
    [extract_frames] raises [FileExistsError] right after opening the
    capture: no frame is read or written, the file system is unchanged,
    and the capture is not released. *)
Theorem output_dir_taken_by_file vp dir r ts w node :
  fs w !! dir = Some node → node ≠ Directory →
  ∃ b w', extract_frames vp dir r ts w = (Raise (FileExistsError dir), w') ∧
          events_since w w' = [EvOpen vp b; EvMkdir dir] ∧
          fs w' = fs w.
Proof.
  intros Hdir Hnode.
  unfold extract_frames. unfold bind at 1.
  assert (∃ b cap, VideoCapture vp w = (Ok cap, log (EvOpen vp b) w))
    as (b & cap & ->).
  { unfold VideoCapture. destruct (fs w !! vp) as [[]|]; eauto. }
  unfold bind at 1. unfold mkdir_parents. cbn [log fs]. rewrite Hdir.
  exists b. destruct node; [done | ..]; (eexists; split_and!; [done | | done]);
    apply events_since_app; cbn [log trace]; by rewrite <- !app_assoc.
Qed.

Lemma output_dir_taken_by_file_witness :
  ∃ b w', extract_frames "clip.mov" "clip.mov" 3 (224, 224)
            (world_with "clip.mov" (VideoFile (clip 3)))
          = (Raise (FileExistsError "clip.mov"), w') ∧
          events_since (world_with "clip.mov" (VideoFile (clip 3))) w'
          = [EvOpen "clip.mov" b; EvMkdir "clip.mov"] ∧
          fs w' = fs (world_with "clip.mov" (VideoFile (clip 3))).
Proof.
  apply (output_dir_taken_by_file "clip.mov" "clip.mov" 3 (224, 224)
           (world_with "clip.mov" (VideoFile (clip 3))) (VideoFile (clip 3))).
  - vm_compute. reflexivity.
  - discriminate.
Defined.

Lemma resize_failure_run w vp dir r ts f rest :
  fs w !! vp = Some (VideoFile (f :: rest)) → can_mkdir w dir → r ≠ 0 →
  ts.1 ≤ 0 ∨ ts.2 ≤ 0 →
  ∃ w', extract_frames vp dir r ts w = (Raise Cv2Error, w') ∧
        events_since w w' = [EvOpen vp true; EvMkdir dir; EvRead (Some f)].
Proof.
  intros Hv Hdir Hr Hts.
  unfold extract_frames. unfold bind at 1. unfold VideoCapture. rewrite Hv.
  unfold bind at 1.
  destruct (mkdir_parents_run dir (log (EvOpen vp true) w)) as (w1 & -> & Ht1 & _);
    [done|].
  cbn [cap_opened cap_pending read_loop negb]. unfold bind at 1. cbn [emit].
  unfold bind at 1. unfold lift at 1. rewrite py_mod_nonzero by done.
  unfold bind at 1. rewrite Z.mod_0_l by done. cbn [Z.eqb].
  unfold bind at 1. unfold lift at 1.
  assert (resize_image f ts = Raise Cv2Error) as ->.
  { unfold resize_image, cv2_resize.
    destruct (empty_size (width f) (height f)); [done|].
    unfold empty_size.
    destruct Hts as [H|H]; apply Z.leb_le in H; rewrite H; [done|].
    by rewrite orb_true_r. }
  unfold bind at 1.
  eexists. split; [done|].
  apply events_since_app. cbn [log trace]. rewrite Ht1. cbn [log trace].
  by rewrite <- !app_assoc.
Qed.

(** X5. The target size is not checked before the loop either: with a
    non-positive width or height, a non-zero stride and a source that
    holds a frame, the first frame is read and its resize raises the
    OpenCV error; nothing is written. *)
Theorem bad_target_size_fails_at_first_resize w vp dir r ts f rest :
  fs w !! vp = Some (VideoFile (f :: rest)) → can_mkdir w dir → r ≠ 0 →
  ts.1 ≤ 0 ∨ ts.2 ≤ 0 →
  ∃ w', extract_frames vp dir r ts w = (Raise Cv2Error, w') ∧
        events_since w w' = [EvOpen vp true; EvMkdir dir; EvRead (Some f)].
Proof.
  intros Hv Hdir Hr Hts.
  unfold extract_frames. unfold bind at 1. unfold VideoCapture. rewrite Hv.
  unfold bind at 1.
  destruct (mkdir_parents_run dir (log (EvOpen vp true) w)) as (w1 & -> & Ht1 & _);
    [done|].
  cbn [cap_opened cap_pending read_loop negb]. unfold bind at 1. cbn [emit].
  unfold bind at 1. unfold lift at 1. rewrite py_mod_nonzero by done.
  unfold bind at 1. rewrite Z.mod_0_l by done. cbn [Z.eqb].
  unfold bind at 1. unfold lift at 1.
  assert (resize_image f ts = Raise Cv2Error) as ->.
  { unfold resize_image, cv2_resize.
    destruct (empty_size (width f) (height f)); [done|].
    unfold empty_size.
    destruct Hts as [H|H]; apply Z.leb_le in H; rewrite H; [done|].
    by rewrite orb_true_r. }
  unfold bind at 1.
  eexists. split; [done|].
  apply events_since_app. cbn [log trace]. rewrite Ht1. cbn [log trace].
  by rewrite <- !app_assoc.
Qed.

Lemma bad_target_size_fails_at_first_resize_witness :
  ∃ w', extract_frames "clip.mov" "out" 3 (0, 224)
          (world_with "clip.mov" (VideoFile (clip 3)))
        = (Raise Cv2Error, w') ∧
        events_since (world_with "clip.mov" (VideoFile (clip 3))) w'
        = [EvOpen "clip.mov" true; EvMkdir "out"; EvRead (Some (hd_frame 0))].
Proof.
  apply (bad_target_size_fails_at_first_resize
           (world_with "clip.mov" (VideoFile (clip 3)))
           "clip.mov" "out" 3 (0, 224) (hd_frame 0) [hd_frame 1; hd_frame 2]).
  - vm_compute. reflexivity.
  - left. vm_compute. reflexivity.
  - discriminate.
  - left. vm_compute. discriminate.
Defined.

(** ** Which frames are kept *)

(** X6. Whenever the source holds a frame, the first frame is kept,
    whatever the non-zero stride: the count is at least 1 and the first
    write is the first frame of the source, under [frame_00000.png]. *)
Theorem first_frame_always_kept w vp dir r ts f rest :
  holds_video w vp (f :: rest) → can_mkdir w dir → valid_size ts → r ≠ 0 →
  ∃ count w' more,
    extract_frames vp dir r ts w = (Ok count, w') ∧
    1 ≤ count ∧
    writes (events_since w w')
    = (os_path_join dir "frame_00000.png", resized ts f) :: more.
Proof.
  intros Hv Hdir Hts Hr.
  destruct (extract_frames_run w vp dir r ts (f :: rest)) as (w' & Hrun & Hev);
    [done..|].
  pose proof (ceil_div_bounds (Z.of_nat (length (f :: rest))) (Z.abs r)) as [B1 B2];
    [lia|].
  rewrite length_cons in B1, B2.
  assert (1 ≤ ceil_div (Z.of_nat (length (f :: rest))) (Z.abs r)) as Hc
    by (rewrite length_cons; nia).
  eexists _, w', _. split; [exact Hrun|]. split; [done|].
  rewrite Hev, writes_run_events, accepted_indices_multiples by done.
  rewrite seqZ_cons by lia. cbn [fmap list_fmap]. rewrite <- list_fmap_compose.
  f_equal.
Qed.

Lemma first_frame_always_kept_witness :
  ∃ count w' more,
    extract_frames "clip.mov" "out" (-7) (224, 224)
      (world_with "clip.mov" (VideoFile (clip 3)))
    = (Ok count, w') ∧
    1 ≤ count ∧
    writes (events_since (world_with "clip.mov" (VideoFile (clip 3))) w')
    = ("out/frame_00000.png", resized (224, 224) (hd_frame 0)) :: more.
Proof.
  apply (first_frame_always_kept
           (world_with "clip.mov" (VideoFile (clip 3)))
           "clip.mov" "out" (-7) (224, 224) (hd_frame 0) [hd_frame 1; hd_frame 2]);
    env_ok.
Defined.

(** X7. When the stride is at least the number of frames of a source that
    is not empty, exactly one frame is kept: the first. *)
Theorem long_stride_keeps_only_first_frame w vp dir r ts f rest :
  holds_video w vp (f :: rest) → can_mkdir w dir → valid_size ts →
  Z.of_nat (length (f :: rest)) ≤ Z.abs r →
  ∃ w', extract_frames vp dir r ts w = (Ok 1, w') ∧
        writes (events_since w w')
        = [(os_path_join dir "frame_00000.png", resized ts f)].
Proof.
  intros Hv Hdir Hts Hlen.
  assert (r ≠ 0) as Hr by (rewrite length_cons in Hlen; lia).
  destruct (extract_frames_run w vp dir r ts (f :: rest)) as (w' & Hrun & Hev);
    [done..|].
  assert (ceil_div (Z.of_nat (length (f :: rest))) (Z.abs r) = 1) as Hc.
  { apply ceil_div_unique; rewrite ?length_cons in *; lia. }
  rewrite Hc in Hrun. exists w'. split; [done|].
  rewrite Hev, writes_run_events, accepted_indices_multiples, Hc by done.
  done.
Qed.

Lemma long_stride_keeps_only_first_frame_witness :
  ∃ w', extract_frames "clip.mov" "out" 30 (224, 224)
          (world_with "clip.mov" (VideoFile (clip 5)))
        = (Ok 1, w') ∧
        writes (events_since (world_with "clip.mov" (VideoFile (clip 5))) w')
        = [("out/frame_00000.png", resized (224, 224) (hd_frame 0))].
Proof.
  apply (long_stride_keeps_only_first_frame
           (world_with "clip.mov" (VideoFile (clip 5)))
           "clip.mov" "out" 30 (224, 224) (hd_frame 0)
           [hd_frame 1; hd_frame 2; hd_frame 3; hd_frame 4]);
    env_ok.
Defined.

(** ** The frames on disk *)

Lemma os_path_join_frame_neq dir k : os_path_join dir (frame_filename k) ≠ dir.
Proof.
  unfold os_path_join. rewrite starts_with_sep_frame_filename.
  intros E. apply (f_equal String.length) in E.
  unfold frame_filename in E.
  destruct (_ || _); rewrite !string_length_app in E; simpl in E; lia.
Qed.

Lemma write_node_same m p img :
  m !! p ≠ Some Directory → write_node m (p, img) !! p = Some (ImageFile img).
Proof.
  intros Hp. unfold write_node. cbn [fst snd].
  destruct (m !! p) as [[]|]; by rewrite ?lookup_insert_eq.
Qed.

Lemma foldl_write_node_lookup ws : ∀ m p img,
  NoDup ws.*1 → (p, img) ∈ ws → m !! p ≠ Some Directory →
  foldl write_node m ws !! p = Some (ImageFile img).
Proof.
  induction ws as [|[p0 img0] ws IH]; intros m p img Hnd Hin Hp.
  - by apply elem_of_nil in Hin.
  - rewrite fmap_cons in Hnd. apply NoDup_cons in Hnd as [Hp0 Hnd].
    cbn [foldl]. apply elem_of_cons in Hin as [[= -> ->] | Hin].
    + rewrite foldl_write_node_other by done. by apply write_node_same.
    + apply IH; [done..|]. rewrite write_node_other; [done|].
      cbn [fst]. intros ->. apply Hp0.
      by apply (list_elem_of_fmap_2 fst _ (p0, img)).
Qed.

(** The file system after a run that returns. *)
Lemma extract_frames_fs w vp dir r ts frames :
  holds_video w vp frames → can_mkdir w dir → valid_size ts → r ≠ 0 →
  fs (extract_frames vp dir r ts w).2
  = foldl write_node (with_directory dir (fs w))
          (writes (run_events vp dir r ts frames)).
Proof.
  intros Hv Hdir Hts Hr.
  destruct (extract_frames_run w vp dir r ts frames) as (w' & Hrun & Hev);
    [done..|].
  destruct (extract_frames_effects vp dir r ts w)
    as (res & w2 & b & t & Hrun' & Hevs & _ & Hfs).
  rewrite Hrun in Hrun'. injection Hrun' as <- <-.
  rewrite Hrun. cbn [snd]. rewrite Hfs. f_equal.
  rewrite <- Hev, Hevs.
  change (EvOpen vp b :: EvMkdir dir :: t ++ [EvRelease])
    with ([EvOpen vp b; EvMkdir dir] ++ t ++ [EvRelease]).
  rewrite !writes_app. cbn [writes omap]. by rewrite app_nil_r.
Qed.

Lemma NoDup_written_paths vp dir r ts frames :
  r ≠ 0 → NoDup (writes (run_events vp dir r ts frames)).*1.
Proof.
  intros Hr. rewrite written_paths by done.
  apply NoDup_fmap_2_strong; [|apply NoDup_seqZ].
  intros j k Hj Hk. apply elem_of_seqZ in Hj, Hk.
  apply os_path_join_frame_inj; lia.
Qed.

(** X8. After a run that returns, every saved frame is found on disk
    under its name: for [k] below the count, [frame_<k as 05d>.png] of
    the output directory holds the frame read at index [k * |r|], resized
    (provided that path was not a directory). *)
Theorem saved_frames_found_on_disk w vp dir r ts frames k :
  holds_video w vp frames → can_mkdir w dir → valid_size ts → r ≠ 0 →
  0 ≤ k < ceil_div (Z.of_nat (length frames)) (Z.abs r) →
  fs w !! os_path_join dir (frame_filename k) ≠ Some Directory →
  fs (extract_frames vp dir r ts w).2 !! os_path_join dir (frame_filename k)
  = Some (ImageFile (resized ts (frames !!! Z.to_nat (k * Z.abs r)))).
Proof.
  intros Hv Hdir Hts Hr Hk Hfree.
  rewrite (extract_frames_fs w vp dir r ts frames) by done.
  apply foldl_write_node_lookup.
  - by apply NoDup_written_paths.
  - rewrite writes_run_events, accepted_indices_multiples by done.
    rewrite <- list_fmap_compose. apply list_elem_of_fmap.
    exists k. split; [|apply elem_of_seqZ; lia].
    simpl. by rewrite Z.div_mul by lia.
  - rewrite with_directory_other; [done|]. apply os_path_join_frame_neq.
Qed.

Lemma saved_frames_found_on_disk_witness :
  fs (extract_frames "clip.mov" "out" 3 (224, 224)
        (world_with "clip.mov" (VideoFile (clip 10)))).2 !! "out/frame_00002.png"
  = Some (ImageFile (resized (224, 224) (hd_frame 6))).
Proof.
  apply (saved_frames_found_on_disk
           (world_with "clip.mov" (VideoFile (clip 10)))
           "clip.mov" "out" 3 (224, 224) (clip 10) 2); try env_ok.
  - split; vm_compute; [discriminate | reflexivity].
Defined.

(** X9. A run that returns [count] leaves the frame files numbered
    [count] and above as they were: frames of an earlier, longer run stay
    on disk beside the new ones. *)
Theorem higher_numbered_frames_left_alone w vp dir r ts frames k :
  holds_video w vp frames → can_mkdir w dir → valid_size ts → r ≠ 0 →
  ceil_div (Z.of_nat (length frames)) (Z.abs r) ≤ k →
  fs (extract_frames vp dir r ts w).2 !! os_path_join dir (frame_filename k)
  = fs w !! os_path_join dir (frame_filename k).
Proof.
  intros Hv Hdir Hts Hr Hk.
  rewrite (extract_frames_fs w vp dir r ts frames) by done.
  pose proof (ceil_div_bounds (Z.of_nat (length frames)) (Z.abs r)) as [B1 B2];
    [lia|].
  rewrite foldl_write_node_other.
  - apply with_directory_other, os_path_join_frame_neq.
  - rewrite written_paths by done. intros Hin.
    apply list_elem_of_fmap in Hin as (j & E & Hj). apply elem_of_seqZ in Hj.
    apply os_path_join_frame_inj in E; nia.
Qed.

Lemma higher_numbered_frames_left_alone_witness :
  fs (extract_frames "clip.mov" "out" 3 (224, 224)
        {| fs := {[ "clip.mov" := VideoFile (clip 3);
                    "out/frame_00007.png" := ImageFile (hd_frame 99) ]};
           trace := [] |}).2 !! "out/frame_00007.png"
  = Some (ImageFile (hd_frame 99)).
Proof.
  rewrite (higher_numbered_frames_left_alone
             {| fs := {[ "clip.mov" := VideoFile (clip 3);
                         "out/frame_00007.png" := ImageFile (hd_frame 99) ]};
                trace := [] |}
             "clip.mov" "out" 3 (224, 224) (clip 3) 7); env_ok.
Defined.

Lemma foldl_write_node_twice ws m :
  NoDup ws.*1 → foldl write_node (foldl write_node m ws) ws = foldl write_node m ws.
Proof.
  intros Hnd. apply map_eq. intros q.
  destruct (decide (q ∈ ws.*1)) as [Hin|Hin].
  - apply list_elem_of_fmap in Hin as ([p img] & -> & Hin). cbn [fst].
    assert (m !! p = Some Directory ∨ m !! p ≠ Some Directory) as [Hd|Hd]
      by (destruct (m !! p) as [[]|]; auto).
    + pose proof (proj2 (foldl_write_node_keeps ws m p) Hd) as H1.
      by rewrite (proj2 (foldl_write_node_keeps ws _ p) H1).
    + pose proof (foldl_write_node_lookup ws m p img Hnd Hin Hd) as H1.
      rewrite H1. apply foldl_write_node_lookup; [done..|]. by rewrite H1.
  - by rewrite !foldl_write_node_other.
Qed.

(** X10. Running [extract_frames] again with the same arguments changes
    nothing: the second run returns the same count and leaves the file
    system as the first run left it (the source video must not be one of
    the frame files of the output directory, which the first run would
    overwrite). *)
Theorem rerun_changes_nothing w vp dir r ts frames :
  holds_video w vp frames → can_mkdir w dir → valid_size ts → r ≠ 0 →
  (∀ k, 0 ≤ k → vp ≠ os_path_join dir (frame_filename k)) →
  (extract_frames vp dir r ts (extract_frames vp dir r ts w).2).1
  = (extract_frames vp dir r ts w).1 ∧
  fs (extract_frames vp dir r ts (extract_frames vp dir r ts w).2).2
  = fs (extract_frames vp dir r ts w).2.
Proof.
  intros Hv Hdir Hts Hr Hvp.
  assert (vp ≠ dir) as Hne.
  { intros ->. destruct Hv as [Hv _]. destruct Hdir as [H|H]; congruence. }
  set (w1 := (extract_frames vp dir r ts w).2).
  assert (fs w1 !! dir = Some Directory) as Hdir1.
  { apply directories_stay. by apply with_directory_dir. }
  assert (holds_video w1 vp frames) as Hv1.
  { destruct Hv as [Hv Hdec]. split; [|done].
    unfold w1. by rewrite untouched_paths. }
  assert (can_mkdir w1 dir) as Hdir1' by (by right).
  split.
  - destruct (extract_frames_run w vp dir r ts frames) as (w' & -> & _); [done..|].
    destruct (extract_frames_run w1 vp dir r ts frames) as (w'' & -> & _); [done..|].
    done.
  - rewrite (extract_frames_fs w1 vp dir r ts frames) by done.
    unfold with_directory. rewrite Hdir1.
    unfold w1. rewrite (extract_frames_fs w vp dir r ts frames) by done.
    apply foldl_write_node_twice. by apply NoDup_written_paths.
Qed.

Lemma rerun_changes_nothing_witness :
  (extract_frames "clip.mov" "out" 3 (224, 224)
     (extract_frames "clip.mov" "out" 3 (224, 224)
        (world_with "clip.mov" (VideoFile (clip 10)))).2).1 = Ok 4 ∧
  fs (extract_frames "clip.mov" "out" 3 (224, 224)
        (extract_frames "clip.mov" "out" 3 (224, 224)
           (world_with "clip.mov" (VideoFile (clip 10)))).2).2
  = fs (extract_frames "clip.mov" "out" 3 (224, 224)
          (world_with "clip.mov" (VideoFile (clip 10)))).2.
Proof.
  destruct (rerun_changes_nothing
              (world_with "clip.mov" (VideoFile (clip 10)))
              "clip.mov" "out" 3 (224, 224) (clip 10)) as [H1 H2];
    [env_ok | env_ok | env_ok | env_ok
     | intros k _; vm_compute; discriminate | ].
  split; [|exact H2]. rewrite H1. vm_compute. reflexivity.
Defined.

(** ** [process_local_video] *)

(** A run of [extract_frames] only adds to the trace. *)
Lemma extract_frames_trace vp dir r ts w :
  trace (extract_frames vp dir r ts w).2
  = trace w ++ events_since w (extract_frames vp dir r ts w).2.
Proof.
  assert (∃ t, trace (extract_frames vp dir r ts w).2 = trace w ++ t) as [t Ht].
  { unfold extract_frames. unfold bind at 1.
    assert (∃ b cap, VideoCapture vp w = (Ok cap, log (EvOpen vp b) w))
      as (b & cap & ->).
    { unfold VideoCapture. destruct (fs w !! vp) as [[]|]; eauto. }
    unfold bind at 1.
    pose proof (mkdir_parents_effects dir (log (EvOpen vp b) w)) as (Ht1 & _).
    destruct (mkdir_parents dir (log (EvOpen vp b) w)) as [[[]|e] w1];
      cbn [fst snd log trace fs] in Ht1.
    - unfold bind at 1.
      destruct (read_loop_effects dir r ts (cap_opened cap) (cap_pending cap) 0 0 w1)
        as (res & w2 & t & -> & Ht2 & _); [done|].
      destruct res as [c|e].
      + unfold bind, cap_release, emit, ret. cbn [snd log trace].
        rewrite Ht2, Ht1, <- !app_assoc. eauto.
      + cbn [snd]. rewrite Ht2, Ht1, <- !app_assoc. eauto.
    - cbn [snd]. rewrite Ht1, <- !app_assoc. eauto. }
  rewrite Ht. f_equal. symmetry. by apply events_since_app.
Qed.

Lemma os_path_exists_true vp w :
  is_Some (fs w !! vp) → os_path_exists vp w = (Ok true, w).
Proof.
  intros H. unfold os_path_exists. by rewrite bool_decide_eq_true_2.
Qed.

(** X11. On a local video that opens, [process_local_video] makes
    [<output_dir>/frames], announces the extraction, runs
    [extract_frames] into that directory with the stride and size it was
    given, reports the count with the directory, and returns the count. *)
Theorem process_local_video_extracts_into_frames_dir w vp dir r ts frames :
  holds_video w vp frames → can_mkdir w (os_path_join dir "frames") →
  valid_size ts → r ≠ 0 →
  ∃ w', process_local_video vp dir r ts w
          = (Ok (ceil_div (Z.of_nat (length frames)) (Z.abs r)), w') ∧
        events_since w w'
        = [EvMkdir (os_path_join dir "frames");
           EvPrint ("Extracting frames from: " +:+ vp)]
          ++ run_events vp (os_path_join dir "frames") r ts frames
          ++ [EvPrint ("Extracted "
                       +:+ py_str (ceil_div (Z.of_nat (length frames)) (Z.abs r))
                       +:+ " frames to " +:+ os_path_join dir "frames")].
Proof.
  intros Hv Hdir Hts Hr.
  assert (vp ≠ os_path_join dir "frames") as Hne.
  { intros ->. destruct Hv as [Hv _]. destruct Hdir as [H|H]; congruence. }
  unfold process_local_video. unfold bind at 1.
  rewrite os_path_exists_true by (destruct Hv as [-> _]; eauto).
  unfold bind at 1. cbn [negb ret]. unfold bind at 1.
  pose proof (mkdir_parents_effects (os_path_join dir "frames") w) as (Ht1 & Ho1 & _).
  pose proof (mkdir_parents_fs (os_path_join dir "frames") w) as Hfs1.
  destruct (mkdir_parents_run (os_path_join dir "frames") w) as (w1 & E1 & _);
    [done|].
  rewrite E1 in Ht1, Ho1, Hfs1 |- *. cbn [snd] in Ht1, Ho1, Hfs1.
  unfold bind at 1. cbn [print emit]. unfold bind at 1.
  set (w2 := log (EvPrint ("Extracting frames from: " +:+ vp)) w1).
  assert (holds_video w2 vp frames) as Hv2.
  { destruct Hv as [Hv Hdec]. split; [|done]. cbn [w2 log fs]. by rewrite Ho1. }
  assert (can_mkdir w2 (os_path_join dir "frames")) as Hdir2.
  { right. cbn [w2 log fs]. rewrite Hfs1. by apply with_directory_dir. }
  pose proof (extract_frames_trace vp (os_path_join dir "frames") r ts w2) as Ht3.
  destruct (extract_frames_run w2 vp (os_path_join dir "frames") r ts frames)
    as (w3 & E3 & Hev3); [done..|].
  rewrite E3 in Ht3 |- *. cbn [snd] in Ht3. rewrite Hev3 in Ht3.
  unfold bind at 1. cbn [ret].
  eexists. split; [done|].
  apply events_since_app. cbn [log trace]. rewrite Ht3. cbn [w2 log trace].
  rewrite Ht1. by rewrite <- !app_assoc.
Qed.

Lemma process_local_video_extracts_into_frames_dir_witness :
  ∃ w', process_local_video "drones3.mov" "suas_dataset" 3 (224, 224)
          (world_with "drones3.mov" (VideoFile (clip 3)))
        = (Ok 1, w') ∧
        events_since (world_with "drones3.mov" (VideoFile (clip 3))) w'
        = [EvMkdir "suas_dataset/frames";
           EvPrint "Extracting frames from: drones3.mov";
           EvOpen "drones3.mov" true; EvMkdir "suas_dataset/frames";
           EvRead (Some (hd_frame 0));
           EvWrite "suas_dataset/frames/frame_00000.png"
                   (resized (224, 224) (hd_frame 0));
           EvRead (Some (hd_frame 1)); EvRead (Some (hd_frame 2));
           EvRead None; EvRelease;
           EvPrint "Extracted 1 frames to suas_dataset/frames"].
Proof.
  apply (process_local_video_extracts_into_frames_dir
           (world_with "drones3.mov" (VideoFile (clip 3)))
           "drones3.mov" "suas_dataset" 3 (224, 224) (clip 3)); env_ok.
Defined.

(** X12. A path that exists and does not hold a decodable video passes
    the existence check of [process_local_video]: the call goes through
    without error, reads and writes no frame, reports 0 frames and
    returns 0. *)
Theorem process_local_video_on_undecodable_file w vp dir r ts :
  is_Some (fs w !! vp) → (∀ frames, fs w !! vp ≠ Some (VideoFile frames)) →
  can_mkdir w (os_path_join dir "frames") →
  ∃ w', process_local_video vp dir r ts w = (Ok 0, w') ∧
        events_since w w'
        = [EvMkdir (os_path_join dir "frames");
           EvPrint ("Extracting frames from: " +:+ vp);
           EvOpen vp false; EvMkdir (os_path_join dir "frames"); EvRelease;
           EvPrint ("Extracted 0 frames to " +:+ os_path_join dir "frames")].
Proof.
  intros Hex Hv Hdir.
  unfold process_local_video. unfold bind at 1.
  rewrite os_path_exists_true by done.
  unfold bind at 1. cbn [negb ret]. unfold bind at 1.
  pose proof (mkdir_parents_effects (os_path_join dir "frames") w)
    as (Ht1 & Ho1 & Hk1 & _).
  pose proof (mkdir_parents_fs (os_path_join dir "frames") w) as Hfs1.
  destruct (mkdir_parents_run (os_path_join dir "frames") w) as (w1 & E1 & _);
    [done|].
  rewrite E1 in Ht1, Ho1, Hk1, Hfs1 |- *. cbn [snd] in Ht1, Ho1, Hk1, Hfs1.
  unfold bind at 1. cbn [print emit]. unfold bind at 1.
  set (w2 := log (EvPrint ("Extracting frames from: " +:+ vp)) w1).
  assert (fs w2 !! vp = fs w !! vp) as Hsame.
  { cbn [w2 log fs]. destruct (decide (vp = os_path_join dir "frames")) as [->|Hne].
    - by rewrite Hk1.
    - by apply Ho1. }
  assert (can_mkdir w2 (os_path_join dir "frames")) as Hdir2.
  { right. cbn [w2 log fs]. rewrite Hfs1. by apply with_directory_dir. }
  unfold extract_frames. unfold bind at 1.
  assert (VideoCapture vp w2
          = (Ok {| cap_opened := false; cap_pending := [] |},
             log (EvOpen vp false) w2)) as ->.
  { unfold VideoCapture. rewrite Hsame.
    destruct (fs w !! vp) as [[]|] eqn:E; try done. by destruct (Hv frames). }
  unfold bind at 1.
  destruct (mkdir_parents_run (os_path_join dir "frames") (log (EvOpen vp false) w2))
    as (w3 & -> & Ht3 & _); [done|].
  cbn [cap_opened cap_pending read_loop negb].
  unfold bind, emit, ret, cap_release.
  eexists. split; [done|].
  apply events_since_app. cbn [log trace]. rewrite Ht3. cbn [w2 log trace].
  rewrite Ht1. by rewrite <- !app_assoc.
Qed.

Lemma process_local_video_on_undecodable_file_witness :
  ∃ w', process_local_video "notes.txt" "out" 30 (224, 224)
          (world_with "notes.txt" OtherFile)
        = (Ok 0, w') ∧
        events_since (world_with "notes.txt" OtherFile) w'
        = [EvMkdir "out/frames"; EvPrint "Extracting frames from: notes.txt";
           EvOpen "notes.txt" false; EvMkdir "out/frames"; EvRelease;
           EvPrint "Extracted 0 frames to out/frames"].
Proof.
  apply (process_local_video_on_undecodable_file
           (world_with "notes.txt" OtherFile) "notes.txt" "out" 30 (224, 224)).
  - vm_compute. eexists. reflexivity.
  - intros frames. vm_compute. discriminate.
  - env_ok.
Defined.

(** X13. When [<output_dir>/frames] is taken by a file,
    [process_local_video] raises [FileExistsError] for it before the
    video is opened: nothing is printed, read or written, and the file
    system is unchanged. *)
Theorem process_local_video_frames_dir_taken w vp dir r ts node :
  is_Some (fs w !! vp) →
  fs w !! os_path_join dir "frames" = Some node → node ≠ Directory →
  ∃ w', process_local_video vp dir r ts w
          = (Raise (FileExistsError (os_path_join dir "frames")), w') ∧
        events_since w w' = [EvMkdir (os_path_join dir "frames")] ∧
        fs w' = fs w.
Proof.
  intros Hex Hdir Hnode.
  unfold process_local_video. unfold bind at 1.
  rewrite os_path_exists_true by done.
  unfold bind at 1. cbn [negb ret]. unfold bind at 1.
  unfold mkdir_parents. rewrite Hdir.
  destruct node; [done | ..]; (eexists; split_and!; [done | | done]);
    by apply events_since_app.
Qed.

Lemma process_local_video_frames_dir_taken_witness :
  ∃ w', process_local_video "clip.mov" "out" 3 (224, 224)
          {| fs := {[ "clip.mov" := VideoFile (clip 3);
                      "out/frames" := OtherFile ]};
             trace := [] |}
        = (Raise (FileExistsError "out/frames"), w') ∧
        events_since {| fs := {[ "clip.mov" := VideoFile (clip 3);
                                 "out/frames" := OtherFile ]};
                        trace := [] |} w'
        = [EvMkdir "out/frames"] ∧
        fs w' = {[ "clip.mov" := VideoFile (clip 3); "out/frames" := OtherFile ]}.
Proof.
  destruct (process_local_video_frames_dir_taken
              {| fs := {[ "clip.mov" := VideoFile (clip 3);
                          "out/frames" := OtherFile ]};
                 trace := [] |}
              "clip.mov" "out" 3 (224, 224) OtherFile)
    as (w' & Hrun & Hev & Hfs).
  - vm_compute. eexists. reflexivity.
  - vm_compute. reflexivity.
  - discriminate.
  - exists w'. split_and!; [exact Hrun | exact Hev | exact Hfs].
Defined.

(** ** The batch driver *)



Lemma mkdir_parents_batch_event p w :
  ∃ res w', mkdir_parents p w = (res, w') ∧ trace w' = trace w ++ [EvMkdir p].
Proof.
  unfold mkdir_parents. destruct (fs w !! p) as [[]|]; simpl; eauto.
Qed.

(** X15. When every download fails without logging anything, a batch
    reads and writes no frame and opens no capture: all [process_videos]
    adds to the trace are directory creations and printed lines. *)
Theorem failed_downloads_extract_nothing ydl exn_str urls base ts w :
  (∀ f t url w0, ∃ e w1, ydl f t url w0 = (BRaise e, w1) ∧ trace w1 = trace w0) →
  ∃ t, trace (process_videos ydl exn_str urls base ts w).2 = trace w ++ t ∧
       Forall batch_event t ∧
       (length urls ≤ length t)%nat.
Proof.
  intros Hydl.
  unfold process_videos. generalize (Z.of_nat (length urls)) as n. intros n.
  generalize 0 as i. revert w.
  induction urls as [|url rest IH]; intros w i.
  { exists []. by rewrite app_nil_r. }
  cbn [process_videos_from]. unfold bind at 1.
  unfold process_videos_step, process_videos_try.
  unfold bbind at 1. unfold core at 1.
  destruct (mkdir_parents_batch_event (os_path_join base (video_dirname i)) w)
    as ([[]|e0] & w1 & -> & Ht1).
  - unfold bbind at 1. unfold core at 1. cbn [print emit].
    unfold bbind at 1. unfold download_youtube_video. unfold bbind at 1.
    match goal with
    | |- context [ydl ?f ?t ?u ?w0] =>
        destruct (Hydl f t u w0) as (e & w2 & -> & Ht2)
    end.
    cbn [print emit].
    match goal with
    | |- context [process_videos_from _ _ _ _ _ _ _ ?w0] =>
        destruct (IH w0 (i + 1)) as (t & -> & Hev & Hlen)
    end.
    eexists (EvMkdir _ :: EvPrint _ :: EvPrint _ :: t). split_and!.
    + cbn [log trace]. rewrite Ht2. cbn [log trace]. rewrite Ht1.
      by rewrite <- !app_assoc.
    + by repeat constructor.
    + cbn [length]. lia.
  - cbn [print emit].
    match goal with
    | |- context [process_videos_from _ _ _ _ _ _ _ ?w0] =>
        destruct (IH w0 (i + 1)) as (t & -> & Hev & Hlen)
    end.
    eexists (EvMkdir _ :: EvPrint _ :: t). split_and!.
    + cbn [log trace]. rewrite Ht1. by rewrite <- !app_assoc.
    + by repeat constructor.
    + cbn [length]. lia.
Qed.

Lemma failed_downloads_extract_nothing_witness :
  ∃ t, trace (process_videos offline_ydl demo_exn_str ["a"; "b"] "out" (224, 224)
                empty_world).2 = trace empty_world ++ t ∧
       Forall batch_event t ∧ (length ["a"; "b"] ≤ length t)%nat.
Proof.
  apply (failed_downloads_extract_nothing offline_ydl demo_exn_str
           ["a"; "b"] "out" (224, 224) empty_world).
  intros f t url w0. eexists _, w0. split; reflexivity.
Defined.

(** *** Last characters, to tell paths apart *)

Lemma string_app_nonempty s t : t ≠ "" → s +:+ t ≠ "".
Proof. intros Ht. destruct s; [done|]. discriminate. Qed.

Lemma str_last_app s t : t ≠ "" → str_last (s +:+ t) = str_last t.
Proof.
  intros Ht. induction s as [|c s IH]; [done|].
  change (String c s +:+ t) with (String c (s +:+ t)).
  pose proof (string_app_nonempty s t Ht).
  cbn [str_last]. destruct (s +:+ t); [done | exact IH].
Qed.

Lemma str_last_os_path_join a b :
  b ≠ "" → str_last (os_path_join a b) = str_last b.
Proof.
  intros Hb. unfold os_path_join.
  destruct (starts_with_sep b); [done|].
  destruct (_ || _).
  - by apply str_last_app.
  - rewrite str_last_app; [by apply (str_last_app "/")|].
    by apply string_app_nonempty.
Qed.

Lemma str_last_video_file base i title :
  str_last (video_file base i title) = Some "4"%char.
Proof.
  unfold video_file. rewrite str_last_os_path_join.
  - by rewrite str_last_app.
  - by apply string_app_nonempty.
Qed.

Lemma video_file_not_frames_dir base i title :
  video_file base i title ≠ video_frames_dir base i.
Proof.
  intros E. apply (f_equal str_last) in E.
  rewrite str_last_video_file in E.
  unfold video_frames_dir in E. by rewrite str_last_os_path_join in E.
Qed.

Lemma video_file_not_a_frame base i title dir k :
  video_file base i title ≠ os_path_join dir (frame_filename k).
Proof.
  intros E. apply (f_equal str_last) in E.
  rewrite str_last_video_file in E.
  rewrite str_last_os_path_join in E by done.
  unfold frame_filename in E.
  rewrite str_last_app in E by (by apply string_app_nonempty).
  by rewrite str_last_app in E.
Qed.

(** *** One turn of the loop *)

Lemma trace_download_start i n url base w :
  trace (download_start i n url base w)
  = trace w ++ [EvMkdir (video_dir base i);
                EvPrint ("Downloading video " +:+ py_str (i + 1) +:+ "/"
                         +:+ py_str n +:+ ": " +:+ url)].
Proof.
  unfold download_start. cbn [log trace].
  destruct (mkdir_parents_effects (os_path_join base (video_dirname i)) w) as [-> _].
  by rewrite <- app_assoc.
Qed.

(** The [try] block once the download has returned a title. *)
Lemma process_videos_try_downloaded ydl i n url base ts w title w2 :
  can_mkdir w (video_dir base i) →
  ydl "best[ext=mp4]" (os_path_join (video_dir base i) "%(title)s.%(ext)s") url
      (download_start i n url base w) = (BOk title, w2) →
  process_videos_try ydl i n url base ts w
  = (core (print ("Extracting frames from video " +:+ py_str (i + 1))) ;;!
     do! num_frames :=
       core (extract_frames (video_file base i title) (video_frames_dir base i)
                            30 ts) in
     core (print ("Extracted " +:+ py_str num_frames +:+ " frames")) ;;!
     os_remove (video_file base i title)) w2.
Proof.
  intros Hdir Hydl. unfold process_videos_try.
  unfold bbind at 1. unfold core at 1.
  unfold download_start in Hydl.
  destruct (mkdir_parents_run (os_path_join base (video_dirname i)) w)
    as (w1 & E1 & _); [done|].
  rewrite E1 in Hydl |- *. cbn [snd] in Hydl.
  unfold bbind at 1. unfold core at 1. cbn [print emit].
  unfold bbind at 1. unfold download_youtube_video. unfold bbind at 1.
  unfold video_dir in Hydl. rewrite Hydl. done.
Qed.

(** X16. A turn of the batch loop whose download succeeds: the video
    found at [<video_dir>/<title>.mp4] is sampled with the stride fixed
    at 30, whatever the caller wants, into [<video_dir>/frames]; the count
    is printed, the downloaded file is removed, and the turn returns
    normally. *)
Theorem downloaded_video_is_sampled_and_removed
    ydl exn_str i n url base ts w title w2 frames :
  can_mkdir w (video_dir base i) →
  ydl "best[ext=mp4]" (os_path_join (video_dir base i) "%(title)s.%(ext)s") url
      (download_start i n url base w) = (BOk title, w2) →
  trace w2 = trace (download_start i n url base w) →
  holds_video w2 (video_file base i title) frames →
  can_mkdir w2 (video_frames_dir base i) →
  valid_size ts →
  ∃ w', process_videos_step ydl exn_str i n url base ts w = (Ok tt, w') ∧
        events_since w w'
        = [EvMkdir (video_dir base i);
           EvPrint ("Downloading video " +:+ py_str (i + 1) +:+ "/"
                    +:+ py_str n +:+ ": " +:+ url);
           EvPrint ("Extracting frames from video " +:+ py_str (i + 1))]
          ++ run_events (video_file base i title) (video_frames_dir base i)
                        30 ts frames
          ++ [EvPrint ("Extracted "
                       +:+ py_str (ceil_div (Z.of_nat (length frames)) 30)
                       +:+ " frames")] ∧
        fs w' !! video_file base i title = None.
Proof.
  intros Hdir Hydl Ht2 Hv Hfdir Hts.
  unfold process_videos_step.
  rewrite (process_videos_try_downloaded ydl i n url base ts w title w2) by done.
  unfold bbind at 1. unfold core at 1. cbn [print emit].
  set (w3 := log (EvPrint ("Extracting frames from video " +:+ py_str (i + 1))) w2).
  unfold bbind at 1. unfold core at 1.
  pose proof (extract_frames_trace (video_file base i title)
                (video_frames_dir base i) 30 ts w3) as Ht4.
  pose proof (untouched_paths (video_file base i title) (video_frames_dir base i)
                30 ts w3 (video_file base i title)
                (video_file_not_frames_dir base i title)
                (λ k _, video_file_not_a_frame base i title _ k)) as Hkeep.
  destruct (extract_frames_run w3 (video_file base i title)
              (video_frames_dir base i) 30 ts frames) as (w4 & E4 & Hev4);
    [done..|].
  rewrite E4 in Ht4, Hkeep |- *. cbn [snd] in Ht4, Hkeep. rewrite Hev4 in Ht4.
  change (Z.abs 30) with 30.
  unfold bbind at 1. unfold core at 1. cbn [print emit].
  unfold os_remove. cbn [log fs]. rewrite Hkeep. cbn [w3 log fs].
  destruct Hv as [-> _].
  eexists. split_and!; [done | | ].
  - apply events_since_app. cbn [log trace]. rewrite Ht4. cbn [w3 log trace].
    rewrite Ht2, trace_download_start. by rewrite <- !app_assoc.
  - cbn [fs]. apply lookup_delete_eq.
Qed.

Lemma downloaded_video_is_sampled_and_removed_witness :
  ∃ w', process_videos_step demo_ydl demo_exn_str 0 1 "https://u" "out" (224, 224)
          empty_world = (Ok tt, w') ∧
        events_since empty_world w'
        = [EvMkdir "out/video_00"; EvPrint "Downloading video 1/1: https://u";
           EvPrint "Extracting frames from video 1";
           EvOpen "out/video_00/demo.mp4" true; EvMkdir "out/video_00/frames";
           EvRead (Some (hd_frame 0));
           EvWrite "out/video_00/frames/frame_00000.png"
                   (resized (224, 224) (hd_frame 0));
           EvRead (Some (hd_frame 1)); EvRead (Some (hd_frame 2));
           EvRead None; EvRelease; EvPrint "Extracted 1 frames"] ∧
        fs w' !! "out/video_00/demo.mp4" = None.
Proof.
  destruct (downloaded_video_is_sampled_and_removed
              demo_ydl demo_exn_str 0 1 "https://u" "out" (224, 224)
              empty_world "demo"
              (demo_ydl "" "" "" (download_start 0 1 "https://u" "out" empty_world)).2
              (clip 3))
    as (w' & Hrun & Hev & Hfs).
  - left. vm_compute. reflexivity.
  - reflexivity.
  - reflexivity.
  - split; [vm_compute; reflexivity | repeat constructor; vm_compute; reflexivity].
  - left. vm_compute. reflexivity.
  - split; vm_compute; reflexivity.
  - exists w'. split_and!; [exact Hrun | exact Hev | exact Hfs].
Defined.

(** X17. When the file is not where [download_youtube_video] says (the
    download stored it under another name, or stored nothing), the turn
    still extracts: the capture does not open, 0 frames are reported,
    then removing the missing file raises, and the turn ends by printing
    that error. *)
Theorem misplaced_download_reports_zero_then_error
    ydl exn_str i n url base ts w title w2 :
  can_mkdir w (video_dir base i) →
  ydl "best[ext=mp4]" (os_path_join (video_dir base i) "%(title)s.%(ext)s") url
      (download_start i n url base w) = (BOk title, w2) →
  trace w2 = trace (download_start i n url base w) →
  fs w2 !! video_file base i title = None →
  can_mkdir w2 (video_frames_dir base i) →
  ∃ w', process_videos_step ydl exn_str i n url base ts w = (Ok tt, w') ∧
        events_since w w'
        = [EvMkdir (video_dir base i);
           EvPrint ("Downloading video " +:+ py_str (i + 1) +:+ "/"
                    +:+ py_str n +:+ ": " +:+ url);
           EvPrint ("Extracting frames from video " +:+ py_str (i + 1));
           EvOpen (video_file base i title) false;
           EvMkdir (video_frames_dir base i);
           EvRelease;
           EvPrint "Extracted 0 frames";
           EvPrint ("Error processing video " +:+ url +:+ ": "
                    +:+ exn_str (RemoveMissing (video_file base i title)))].
Proof.
  intros Hdir Hydl Ht2 Hv Hfdir.
  unfold process_videos_step.
  rewrite (process_videos_try_downloaded ydl i n url base ts w title w2) by done.
  unfold bbind at 1. unfold core at 1. cbn [print emit].
  set (w3 := log (EvPrint ("Extracting frames from video " +:+ py_str (i + 1))) w2).
  unfold bbind at 1. unfold core at 1.
  unfold extract_frames. unfold bind at 1. unfold VideoCapture.
  cbn [w3 log fs]. rewrite Hv. fold w3.
  unfold bind at 1.
  pose proof (mkdir_parents_effects (video_frames_dir base i)
                (log (EvOpen (video_file base i title) false) w3))
    as (_ & Ho & _).
  destruct (mkdir_parents_run (video_frames_dir base i)
              (log (EvOpen (video_file base i title) false) w3))
    as (w4 & E4 & Ht4 & _); [done|].
  rewrite E4 in Ho |- *. cbn [snd] in Ho.
  cbn [cap_opened cap_pending read_loop negb].
  unfold bind, ret, cap_release, emit.
  unfold bbind at 1. unfold core at 1. cbn [print emit].
  unfold os_remove. cbn [log fs].
  rewrite (Ho (video_file base i title) (video_file_not_frames_dir base i title)).
  cbn [w3 log fs]. rewrite Hv. cbn [print emit].
  eexists. split; [done|].
  apply events_since_app. cbn [log trace]. rewrite Ht4. cbn [w3 log trace].
  rewrite Ht2, trace_download_start. by rewrite <- !app_assoc.
Qed.

Lemma misplaced_download_reports_zero_then_error_witness :
  ∃ w', process_videos_step misnamed_ydl demo_exn_str 0 1 "a" "out" (224, 224)
          empty_world = (Ok tt, w') ∧
        events_since empty_world w'
        = [EvMkdir "out/video_00"; EvPrint "Downloading video 1/1: a";
           EvPrint "Extracting frames from video 1";
           EvOpen "out/video_00/demo.mp4" false; EvMkdir "out/video_00/frames";
           EvRelease; EvPrint "Extracted 0 frames";
           EvPrint "Error processing video a: FileNotFoundError"].
Proof.
  destruct (misplaced_download_reports_zero_then_error
              misnamed_ydl demo_exn_str 0 1 "a" "out" (224, 224)
              empty_world "demo" (download_start 0 1 "a" "out" empty_world))
    as (w' & Hrun & Hev).
  - left. vm_compute. reflexivity.
  - reflexivity.
  - reflexivity.
  - vm_compute. reflexivity.
  - left. vm_compute. reflexivity.
  - exists w'. split; [exact Hrun | exact Hev].
Defined.

(** X18. When the extraction raises, the clean-up is skipped: with a
    non-positive target size the first resize fails, the error is
    printed, and the downloaded video stays on disk. *)
Theorem failed_extraction_keeps_download
    ydl exn_str i n url base ts w title w2 f rest :
  can_mkdir w (video_dir base i) →
  ydl "best[ext=mp4]" (os_path_join (video_dir base i) "%(title)s.%(ext)s") url
      (download_start i n url base w) = (BOk title, w2) →
  trace w2 = trace (download_start i n url base w) →
  fs w2 !! video_file base i title = Some (VideoFile (f :: rest)) →
  can_mkdir w2 (video_frames_dir base i) →
  ts.1 ≤ 0 ∨ ts.2 ≤ 0 →
  ∃ w', process_videos_step ydl exn_str i n url base ts w = (Ok tt, w') ∧
        events_since w w'
        = [EvMkdir (video_dir base i);
           EvPrint ("Downloading video " +:+ py_str (i + 1) +:+ "/"
                    +:+ py_str n +:+ ": " +:+ url);
           EvPrint ("Extracting frames from video " +:+ py_str (i + 1));
           EvOpen (video_file base i title) true;
           EvMkdir (video_frames_dir base i);
           EvRead (Some f);
           EvPrint ("Error processing video " +:+ url +:+ ": "
                    +:+ exn_str (CoreExn Cv2Error))] ∧
        fs w' !! video_file base i title = Some (VideoFile (f :: rest)).
Proof.
  intros Hdir Hydl Ht2 Hv Hfdir Hts.
  unfold process_videos_step.
  rewrite (process_videos_try_downloaded ydl i n url base ts w title w2) by done.
  unfold bbind at 1. unfold core at 1. cbn [print emit].
  set (w3 := log (EvPrint ("Extracting frames from video " +:+ py_str (i + 1))) w2).
  unfold bbind at 1. unfold core at 1.
  pose proof (extract_frames_trace (video_file base i title)
                (video_frames_dir base i) 30 ts w3) as Ht4.
  pose proof (untouched_paths (video_file base i title) (video_frames_dir base i)
                30 ts w3 (video_file base i title)
                (video_file_not_frames_dir base i title)
                (λ k _, video_file_not_a_frame base i title _ k)) as Hkeep.
  destruct (resize_failure_run w3 (video_file base i title)
              (video_frames_dir base i) 30 ts f rest) as (w4 & E4 & Hev4);
    [done..|].
  rewrite E4 in Ht4, Hkeep |- *. cbn [snd] in Ht4, Hkeep. rewrite Hev4 in Ht4.
  cbn [print emit].
  eexists. split_and!; [done | | ].
  - apply events_since_app. cbn [log trace]. rewrite Ht4. cbn [w3 log trace].
    rewrite Ht2, trace_download_start. by rewrite <- !app_assoc.
  - cbn [log fs]. by rewrite Hkeep.
Qed.

Lemma failed_extraction_keeps_download_witness :
  ∃ w', process_videos_step demo_ydl demo_exn_str 0 1 "https://u" "out" (0, 0)
          empty_world = (Ok tt, w') ∧
        fs w' !! "out/video_00/demo.mp4" = Some (VideoFile (clip 3)).
Proof.
  destruct (failed_extraction_keeps_download
              demo_ydl demo_exn_str 0 1 "https://u" "out" (0, 0)
              empty_world "demo"
              (demo_ydl "" "" "" (download_start 0 1 "https://u" "out" empty_world)).2
              (hd_frame 0) [hd_frame 1; hd_frame 2])
    as (w' & Hrun & _ & Hfs).
  - left. vm_compute. reflexivity.
  - reflexivity.
  - reflexivity.
  - vm_compute. reflexivity.
  - left. vm_compute. reflexivity.
  - left. vm_compute. discriminate.
  - exists w'. split; [exact Hrun | exact Hfs].
Defined.

(** *** Directories of a batch *)

Lemma parse_format_02d k : 0 ≤ k → parse_digits (format_02d k) = Some k.
Proof.
  intros Hk. unfold format_02d, parse_digits, digits_of_N.
  rewrite (proj2 (Z.ltb_ge k 0) Hk), uint_of_string_zeros, NilEmpty.usu.
  simpl. rewrite of_uint_zeros, DecimalN.Unsigned.of_to.
  f_equal. lia.
Qed.

(** X19. The videos of a batch get directories of their own: the
    directories [video_<i as 02d>] under one base directory differ for
    different indices, also beyond 99 where the number takes more than
    two digits. *)
Theorem video_dirs_distinct base i j :
  0 ≤ i → 0 ≤ j → i ≠ j → video_dir base i ≠ video_dir base j.
Proof.
  intros Hi Hj Hne E. apply Hne.
  unfold video_dir, os_path_join, video_dirname in E.
  assert (format_02d i = format_02d j) as E'.
  { change (starts_with_sep ("video_" +:+ format_02d i)) with false in E.
    change (starts_with_sep ("video_" +:+ format_02d j)) with false in E.
    destruct (_ || _).
    - apply (inj (String.append base)) in E.
      by apply (inj (String.append "video_")) in E.
    - apply (inj (String.append base)) in E.
      apply (inj (String.append "/")) in E.
      by apply (inj (String.append "video_")) in E. }
  apply (f_equal parse_digits) in E'.
  rewrite !parse_format_02d in E' by done. congruence.
Qed.

Lemma video_dirs_distinct_witness :
  video_dir "out" 7 = "out/video_07" ∧ video_dir "out" 123 = "out/video_123" ∧
  video_dir "out" 7 ≠ video_dir "out" 123.
Proof.
  split_and!; [reflexivity | reflexivity |].
  apply (video_dirs_distinct "out" 7 123); lia.
Defined.

(** ** The script *)

(** X20. Loading the module when the fixed video path does not exist
    raises nothing: the [FileNotFoundError] of [process_local_video] is
    caught, its message is printed after "Error processing local video: ",
    and nothing else happens. *)
Theorem script_reports_missing_video lib_str w :
  fs w !! local_video_path = None →
  script lib_str w
  = (Ok tt,
     log (EvPrint "Error processing local video: Video file not found: Data preparation/drones3.mov")
         w).
Proof.
  intros Hv. unfold script, process_local_video, bind, os_path_exists.
  rewrite Hv. rewrite bool_decide_eq_false_2 by (by intros [? ?]).
  done.
Qed.

Lemma script_reports_missing_video_witness :
  script (λ _, "") empty_world
  = (Ok tt,
     log (EvPrint "Error processing local video: Video file not found: Data preparation/drones3.mov")
         empty_world).
Proof.
  apply (script_reports_missing_video (λ _, "") empty_world).
  vm_compute. reflexivity.
Defined.
